(** * VideoContext: the frame scheduler and the playback state machine

    A shallow embedding of [src/videocontext.js].  The file has two parts of
    program text: the module-level frame loop ([registerUpdateable], [update])
    and the class [VideoContext] (timeline, playback state, per-tick
    reconciliation of source readiness, command dispatch, render pass).

    Numbers are JavaScript numbers, that is IEEE 754 binary64 values: they are
    embedded as Rocq's primitive [float], so [NaN], the comparison [>] and
    [+=] behave as they do in the program.  The collaborators whose code is
    not part of the file (source nodes, processing nodes, the destination
    node, the host's [parseFloat]) are interfaces; every call the context
    makes on them is both applied to their state and recorded in a trace. *)

From Stdlib Require Import Floats List String Ascii Bool Arith ZArith Lia.
Import ListNotations.

Set Implicit Arguments.

(** ** JavaScript numbers *)

Module JS.

(** [a > b] on numbers; false as soon as one side is [NaN]. *)
Definition gt (a b : float) : bool := PrimFloat.ltb b a.

(** A value that is either [undefined] or a number, with [ToNumber]. *)
Definition toNumber (v : option float) : float :=
  match v with
  | Some x => x
  | None => nan
  end.

(** The argument of the [currentTime] setter: a number, a primitive string
    ([typeof v === 'string']) or a [String] object ([v instanceof String]). *)
Inductive value : Type :=
| Number (x : float)
| Str (s : string)
| StringObject (s : string).

(** What the host environment supplies to the program. *)
Class Host : Type := { parseFloat : string -> float }.

(** A thrown value. *)
Definition exn : Type := string.

End JS.

(** ** The playback states (line 24) *)

Inductive STATE : Type := playing | paused | stalled | ended | broken.

Definition STATE_code (s : STATE) : nat :=
  match s with
  | playing => 0
  | paused => 1
  | stalled => 2
  | ended => 3
  | broken => 4
  end.

(** [a === b] on two state codes. *)
Definition STATE_eqb (a b : STATE) : bool := Nat.eqb (STATE_code a) (STATE_code b).

(** ** Collaborators *)

Module SourceNode.

(** The members of a source node that [VideoContext] uses. *)
Class Ops (N : Type) : Type := {
  _isReady : N -> bool;
  _seek : float -> N -> N;
  _play : N -> N;
  _pause : N -> N;
  _update : float -> N -> N;
  _stopTime : N -> float
}.

(** The state-changing calls among them. *)
Inductive command : Type :=
| Seek (t : float)
| Play
| Pause
| Update (t : float).

Definition exec {N} `{Ops N} (c : command) (n : N) : N :=
  match c with
  | Seek t => _seek t n
  | Play => _play n
  | Pause => _pause n
  | Update t => _update t n
  end.

Definition run {N} `{Ops N} (cs : list command) (n : N) : N :=
  fold_left (fun m c => exec c m) cs n.

(** A node that reports ready and keeps the stop time [stop], whatever it
    is told. *)
Definition steady {N} `{Ops N} (stop : float) (n : N) : Prop :=
  forall cs, _isReady (run cs n) = true /\ _stopTime (run cs n) = stop.

Definition is_pause (c : command) : bool :=
  match c with Pause => true | _ => false end.

Definition is_play (c : command) : bool :=
  match c with Play => true | _ => false end.

Definition is_seek (c : command) : bool :=
  match c with Seek _ => true | _ => false end.

End SourceNode.

(** Processing nodes and the destination node: something with [_render()]. *)
Class Renderable (R : Type) : Type := { _render : R -> R }.

(** One call made by the context on a collaborator. *)
Inductive call : Type :=
| OnSource (i : nat) (c : SourceNode.command)
| DestinationRender
| ProcessingRender (j : nat).

(** The commands that source number [i] received, in order. *)
Fixpoint received (i : nat) (tr : list call) : list SourceNode.command :=
  match tr with
  | [] => []
  | OnSource j c :: rest =>
      if Nat.eqb i j then c :: received i rest else received i rest
  | _ :: rest => received i rest
  end.

Definition is_render (c : call) : bool :=
  match c with
  | OnSource _ _ => false
  | _ => true
  end.

(** [for (let i = 0; i < l.length; i++) body(l[i])], where the body changes
    element [i] and issues commands to it; [i] is the index of the head. *)
Fixpoint forEach {A} (body : A -> A * list SourceNode.command) (i : nat)
    (l : list A) : list A * list call :=
  match l with
  | [] => ([], [])
  | a :: rest =>
      let (a', cs) := body a in
      let (rest', tr) := forEach body (S i) rest in
      (a' :: rest', map (OnSource i) cs ++ tr)
  end.

(** ** The class [VideoContext] *)

Module VideoContext.

Record t (N P D : Type) : Type := mk {
  _sourceNodes : list N;
  _processingNodes : list P;
  _currentTime : float;
  _state : STATE;
  _destinationNode : D
}.

Section Methods.
Context {N P D : Type}.
Context {NO : SourceNode.Ops N} {PR : Renderable P} {DR : Renderable D}.
Context {H : JS.Host}.

Local Abbreviation ctx := (t N P D).

Definition with_sourceNodes (c : ctx) (ns : list N) : ctx :=
  mk ns (_processingNodes c) (_currentTime c) (_state c) (_destinationNode c).

Definition with_currentTime (c : ctx) (x : float) : ctx :=
  mk (_sourceNodes c) (_processingNodes c) x (_state c) (_destinationNode c).

Definition with_state (c : ctx) (s : STATE) : ctx :=
  mk (_sourceNodes c) (_processingNodes c) (_currentTime c) s (_destinationNode c).

(** The constructor (lines 33-42): no nodes, time 0, paused. *)
Definition new (destination : D) : ctx :=
  mk [] [] 0%float paused destination.

(** [set currentTime] (lines 78-89). *)
Definition coerce (v : JS.value) : float :=
  match v with
  | JS.Number x => x
  | JS.Str s => JS.parseFloat s
  | JS.StringObject s => JS.parseFloat s
  end.

Definition set_currentTime (v : JS.value) (c : ctx) : ctx * list call :=
  let currentTime := coerce v in
  let (ns, tr) :=
    forEach (fun n => (SourceNode._seek currentTime n, [SourceNode.Seek currentTime]))
            0 (_sourceNodes c) in
  (with_currentTime (with_sourceNodes c ns) currentTime, tr).

(** [get currentTime] (lines 107-109). *)
Definition get_currentTime (c : ctx) : float := _currentTime c.

(** [get duration] (lines 111-119). *)
Definition duration_step (maxTime : float) (n : N) : float :=
  if JS.gt (SourceNode._stopTime n) maxTime
  then SourceNode._stopTime n
  else maxTime.

Definition duration (c : ctx) : float :=
  fold_left duration_step (_sourceNodes c) 0%float.

(** [get destination] (lines 121-123). *)
Definition destination (c : ctx) : D := _destinationNode c.

(** [play()] (lines 125-132). *)
Definition play (c : ctx) : ctx * list call :=
  let (ns, tr) :=
    forEach (fun n => (SourceNode._play n, [SourceNode.Play])) 0 (_sourceNodes c) in
  (with_state (with_sourceNodes c ns) playing, tr).

(** [pause()] (lines 134-141). *)
Definition pause (c : ctx) : ctx * list call :=
  let (ns, tr) :=
    forEach (fun n => (SourceNode._pause n, [SourceNode.Pause])) 0 (_sourceNodes c) in
  (with_state (with_sourceNodes c ns) paused, tr).

(** [createVideoSourceNode] (lines 143-147), given the node it builds. *)
Definition createVideoSourceNode (videoNode : N) (c : ctx) : ctx :=
  with_sourceNodes c (_sourceNodes c ++ [videoNode]).

(** [createEffectNode] (lines 149-153), given the node it builds. *)
Definition createEffectNode (effectNode : P) (c : ctx) : ctx :=
  mk (_sourceNodes c) (_processingNodes c ++ [effectNode]) (_currentTime c)
     (_state c) (_destinationNode c).

(** [_isStalled()] (lines 155-163). *)
Fixpoint isStalled_from (ns : list N) : bool :=
  match ns with
  | [] => false
  | sourceNode :: rest =>
      if negb (SourceNode._isReady sourceNode) then true else isStalled_from rest
  end.

Definition _isStalled (c : ctx) : bool := isStalled_from (_sourceNodes c).

(** [_update(dt)], lines 169-175: the state inferred from readiness. *)
Definition reconcile (c : ctx) : ctx :=
  if negb (STATE_eqb (_state c) paused) then
    if _isStalled c then with_state c stalled else with_state c playing
  else c.

(** Lines 178-181: the clock. *)
Definition advance (dt : float) (c : ctx) : ctx :=
  if STATE_eqb (_state c) playing then
    let c1 := with_currentTime c (_currentTime c + dt)%float in
    if JS.gt (_currentTime c1) (duration c1) then with_state c1 ended else c1
  else c.

(** Lines 185-196: the body of the loop over the source nodes. *)
Definition dispatch_body (st : STATE) (currentTime : float) (sourceNode : N)
    : N * list SourceNode.command :=
  let n0 := SourceNode._update currentTime sourceNode in
  let '(n1, c1) :=
    if STATE_eqb st stalled then
      if SourceNode._isReady n0 then (SourceNode._pause n0, [SourceNode.Pause])
      else (n0, [])
    else (n0, []) in
  let '(n2, c2) :=
    if STATE_eqb st paused then (SourceNode._pause n1, [SourceNode.Pause])
    else (n1, []) in
  let '(n3, c3) :=
    if STATE_eqb st playing then (SourceNode._play n2, [SourceNode.Play])
    else (n2, []) in
  (n3, SourceNode.Update currentTime :: c1 ++ c2 ++ c3).

(** Lines 184-197. *)
Definition dispatch (c : ctx) : ctx * list call :=
  let (ns, tr) :=
    forEach (dispatch_body (_state c) (_currentTime c)) 0 (_sourceNodes c) in
  (with_sourceNodes c ns, tr).

(** Lines 199-202: the render pass. *)
Definition render_calls (m : nat) : list call :=
  DestinationRender :: map ProcessingRender (seq 0 m).

Definition render (c : ctx) : ctx * list call :=
  (mk (_sourceNodes c) (map _render (_processingNodes c)) (_currentTime c)
      (_state c) (_render (_destinationNode c)),
   render_calls (List.length (_processingNodes c))).

(** The guard of line 167. *)
Definition ticking (s : STATE) : bool :=
  STATE_eqb s playing || STATE_eqb s stalled || STATE_eqb s paused.

(** [_update(dt)] (lines 165-204). *)
Definition _update (dt : float) (c : ctx) : ctx * list call :=
  if ticking (_state c) then
    let c1 := reconcile c in
    let c2 := advance dt c1 in
    let (c3, tr3) := dispatch c2 in
    let (c4, tr4) := render c3 in
    (c4, tr3 ++ tr4)
  else (c, []).

(** [n] calls of [_update(dt)] in a row, with the calls they made. *)
Fixpoint ticks (n : nat) (dt : float) (c : ctx) : ctx * list call :=
  match n with
  | 0 => (c, [])
  | S k =>
      let (c1, tr1) := _update dt c in
      let (c2, tr2) := ticks k dt c1 in
      (c2, tr1 ++ tr2)
  end.

(** A user of the class calls its public members, and the frame loop calls
    [_update(dt)], in some order. *)
Inductive request : Type :=
| CallPlay
| CallPause
| SetCurrentTime (v : JS.value)
| CreateVideoSourceNode (videoNode : N)
| CreateEffectNode (effectNode : P)
| Frame (dt : float).

Definition perform (r : request) (c : ctx) : ctx * list call :=
  match r with
  | CallPlay => play c
  | CallPause => pause c
  | SetCurrentTime v => set_currentTime v c
  | CreateVideoSourceNode videoNode => (createVideoSourceNode videoNode c, [])
  | CreateEffectNode effectNode => (createEffectNode effectNode c, [])
  | Frame dt => _update dt c
  end.

Fixpoint session (rs : list request) (c : ctx) : ctx * list call :=
  match rs with
  | [] => (c, [])
  | r :: rest =>
      let (c1, tr1) := perform r c in
      let (c2, tr2) := session rest c1 in
      (c2, tr1 ++ tr2)
  end.

Definition is_create_source (r : request) : bool :=
  match r with CreateVideoSourceNode _ => true | _ => false end.

Definition is_create_effect (r : request) : bool :=
  match r with CreateEffectNode _ => true | _ => false end.

Definition restarts (r : request) : bool :=
  match r with CallPlay | CallPause => true | _ => false end.

(** The calls [k; k+1; ...] on consecutive sources, one command each. *)
Definition fan_out (cmd : SourceNode.command) (n : nat) : list call :=
  map (fun i => OnSource i cmd) (seq 0 n).

(** The context of the two-source scenario: two always-ready sources that
    stop at 10 and at 20, at time [t] and in state [st]. *)
Definition scene (t : float) (st : STATE) (c : ctx) : Prop :=
  exists m1 m2,
    SourceNode.steady 10 m1 /\ SourceNode.steady 20 m2 /\
    _sourceNodes c = [m1; m2] /\ _currentTime c = t /\ _state c = st.

End Methods.

End VideoContext.

(** ** The frame loop (lines 7-21) *)

Module Scheduler.

(** What the loop needs of a registered object: [_update(dt)], which may
    throw; the object is returned as the call left it. *)
Class Updateable (U : Type) : Type := {
  _update : float -> U -> U * option JS.exn
}.

(** The module-level variables, and the number of times
    [requestAnimationFrame(update)] has been called. *)
Record t (U : Type) : Type := mk {
  updateables : list U;
  previousTime : option float;
  frameRequests : nat
}.

(** How a call of [update] went. *)
Record outcome (U : Type) : Type := mkOutcome {
  after : t U;
  invoked : list nat;
  thrown : option JS.exn
}.

Section Loop.
Context {U : Type} {UU : Updateable U}.

Definition initial : t U := mk [] None 0.

Definition registerUpdateable (updateable : U) (s : t U) : t U :=
  mk (updateables s ++ [updateable]) (previousTime s) (frameRequests s).

(** Lines 15-17; [i] is the index of the head of [us]. *)
Fixpoint run (dt : float) (i : nat) (us : list U)
    : list U * list nat * option JS.exn :=
  match us with
  | [] => ([], [], None)
  | u :: rest =>
      match _update dt u with
      | (u', Some e) => (u' :: rest, [i], Some e)
      | (u', None) =>
          let '(rest', inv, e) := run dt (S i) rest in
          (u' :: rest', i :: inv, e)
      end
  end.

(** [(time - previousTime)/1000] of line 14; [undefined] counts as [NaN]. *)
Definition delta (time previous : option float) : float :=
  ((JS.toNumber time - JS.toNumber previous) / 1000)%float.

(** [update(time)] (lines 12-20). *)
Definition update (time : option float) (s : t U) : outcome U :=
  let previous :=
    match previousTime s with
    | None => time
    | Some p => Some p
    end in
  let dt := delta time previous in
  match run dt 0 (updateables s) with
  | (us, inv, Some e) =>
      mkOutcome (mk us previous (frameRequests s)) inv (Some e)
  | (us, inv, None) =>
      mkOutcome (mk us time (S (frameRequests s))) inv None
  end.

End Loop.

(** A [VideoContext] registers itself (line 42); its collaborators are
    total, so its tick never throws. *)
#[global] Instance VideoContext_Updateable {N P D}
    `{SourceNode.Ops N} `{Renderable P} `{Renderable D}
    : Updateable (VideoContext.t N P D) :=
  {| _update := fun dt c => (fst (VideoContext._update dt c), None) |}.

End Scheduler.

(** ** Instances of the interfaces to run the program on *)

Module Probe.

(** A source node that records what it is told; its readiness and stop time
    are fixed when it is built. *)
Record source : Type := mkSource {
  ready : bool;
  stopTime : float;
  log : list SourceNode.command
}.

Definition tell (c : SourceNode.command) (n : source) : source :=
  mkSource (ready n) (stopTime n) (log n ++ [c]).

#[global] Instance source_Ops : SourceNode.Ops source := {|
  SourceNode._isReady := ready;
  SourceNode._seek := fun t => tell (SourceNode.Seek t);
  SourceNode._play := tell SourceNode.Play;
  SourceNode._pause := tell SourceNode.Pause;
  SourceNode._update := fun t => tell (SourceNode.Update t);
  SourceNode._stopTime := stopTime
|}.

(** A node that counts its render calls. *)
Record surface : Type := mkSurface { renders : nat }.

#[global] Instance surface_Renderable : Renderable surface :=
  {| _render := fun s => mkSurface (S (renders s)) |}.

(** An updateable that counts its ticks, and one that throws. *)
Inductive widget : Type :=
| Counter (n : nat)
| Faulty (message : string).

#[global] Instance widget_Updateable : Scheduler.Updateable widget := {|
  Scheduler._update := fun _ w =>
    match w with
    | Counter n => (Counter (S n), None)
    | Faulty message => (Faulty message, Some message)
    end
|}.

(** [parseFloat] on plain decimal literals: leading white space, an optional
    sign, digits, an optional fraction; [NaN] when no digit is found.  The
    value is the quotient of two exactly represented numbers, hence correctly
    rounded, as long as the literal has at most 15 digits.  Exponents and
    [Infinity] are not read; the theorems hold for every host and use this
    one at sample strings only. *)
Definition is_white (c : ascii) : bool :=
  let k := nat_of_ascii c in
  Nat.eqb k 32 || (Nat.leb 9 k && Nat.leb k 13).

Fixpoint skip_white (s : string) : string :=
  match s with
  | String c rest => if is_white c then skip_white rest else s
  | EmptyString => s
  end.

Definition digit (c : ascii) : option float :=
  match c with
  | "0"%char => Some 0%float
  | "1"%char => Some 1%float
  | "2"%char => Some 2%float
  | "3"%char => Some 3%float
  | "4"%char => Some 4%float
  | "5"%char => Some 5%float
  | "6"%char => Some 6%float
  | "7"%char => Some 7%float
  | "8"%char => Some 8%float
  | "9"%char => Some 9%float
  | _ => None
  end.

Fixpoint digits (s : string) (acc scale : float) (seen : bool)
    : float * float * bool * string :=
  match s with
  | String c rest =>
      match digit c with
      | Some d => digits rest (acc * 10 + d)%float (scale * 10)%float true
      | None => (acc, scale, seen, s)
      end
  | EmptyString => (acc, scale, seen, s)
  end.

Definition unsigned (s : string) : float :=
  let '(whole, _, seen1, s1) := digits s 0%float 1%float false in
  let '(mantissa, scale, seen2) :=
    match s1 with
    | String "."%char rest =>
        let '(m, sc, seen, _) := digits rest whole 1%float false in (m, sc, seen)
    | _ => (whole, 1%float, false)
    end in
  if seen1 || seen2 then (mantissa / scale)%float else nan.

Definition parseFloat (s : string) : float :=
  match skip_white s with
  | String "-"%char rest => (- unsigned rest)%float
  | String "+"%char rest => unsigned rest
  | rest => unsigned rest
  end.

#[global] Instance host : JS.Host := {| JS.parseFloat := parseFloat |}.

(** Sample inputs. *)
Definition node (isReady : bool) (stop : float) : source :=
  mkSource isReady stop [].

Definition stage (st : STATE) (currentTime : float) (ns : list source)
    : VideoContext.t source surface surface :=
  VideoContext.mk ns [mkSurface 0] currentTime st (mkSurface 0).

Definition widgets : Scheduler.t widget :=
  Scheduler.mk [Counter 0; Faulty "boom"; Counter 0] (Some 0%float) 0.

End Probe.

Example parseFloat_12_5 : Probe.parseFloat "12.5" = 12.5%float.
Proof. reflexivity. Qed.

Example parseFloat_abc : Probe.parseFloat "abc" = nan.
Proof. reflexivity. Qed.

Example parseFloat_neg : Probe.parseFloat "  -0.25s" = (-0.25)%float.
Proof. reflexivity. Qed.

(** ** The loop over the source nodes *)

Section ForEach.
Context {A : Type}.
Variable body : A -> A * list SourceNode.command.

Lemma forEach_nodes (l : list A) :
  forall i, fst (forEach body i l) = map (fun a => fst (body a)) l.
Proof.
  induction l as [|a rest IH]; intros i; simpl; [reflexivity|].
  destruct (body a) as [a' cs] eqn:Ea.
  specialize (IH (S i)).
  destruct (forEach body (S i) rest) as [rest' tr]; simpl in *.
  now rewrite IH.
Qed.

Lemma received_app (k : nat) (t1 t2 : list call) :
  received k (t1 ++ t2) = received k t1 ++ received k t2.
Proof.
  induction t1 as [|[j c| |j] t1 IH]; simpl; auto.
  destruct (Nat.eqb k j); simpl; now rewrite IH.
Qed.

Lemma received_OnSource (k i : nat) (cs : list SourceNode.command) :
  received k (map (OnSource i) cs) = if Nat.eqb k i then cs else [].
Proof.
  induction cs as [|c cs IH]; simpl.
  - now destruct (Nat.eqb k i).
  - rewrite IH. now destruct (Nat.eqb k i).
Qed.

Lemma received_forEach (l : list A) :
  forall i k,
    received k (snd (forEach body i l)) =
    if Nat.leb i k
    then match nth_error l (k - i) with
         | Some a => snd (body a)
         | None => []
         end
    else [].
Proof.
  induction l as [|a rest IH]; intros i k; cbn [forEach snd].
  - destruct (Nat.leb i k); [|reflexivity]. now destruct (k - i).
  - destruct (body a) as [a' cs] eqn:Ea.
    specialize (IH (S i) k).
    destruct (forEach body (S i) rest) as [rest' tr]; cbn [snd] in *.
    rewrite received_app, received_OnSource, IH.
    destruct (Nat.eqb_spec k i) as [->|Hne].
    + rewrite Nat.leb_refl, Nat.sub_diag; cbn [nth_error].
      destruct (Nat.leb_spec (S i) i); [lia|]. rewrite Ea. apply app_nil_r.
    + cbn [app]. destruct (Nat.leb_spec i k) as [Hle|Hlt].
      * destruct (Nat.leb_spec (S i) k); [|lia].
        replace (k - i) with (S (k - S i)) by lia. reflexivity.
      * destruct (Nat.leb_spec (S i) k); [lia|reflexivity].
Qed.

Lemma received_forEach_0 (l : list A) (k : nat) :
  received k (snd (forEach body 0 l)) =
  match nth_error l k with
  | Some a => snd (body a)
  | None => []
  end.
Proof. rewrite received_forEach; simpl. now rewrite Nat.sub_0_r. Qed.

Lemma forEach_no_render (l : list A) :
  forall i, filter is_render (snd (forEach body i l)) = [].
Proof.
  induction l as [|a rest IH]; intros i; simpl; [reflexivity|].
  destruct (body a) as [a' cs].
  specialize (IH (S i)).
  destruct (forEach body (S i) rest) as [rest' tr]; simpl in *.
  rewrite filter_app, IH, app_nil_r.
  induction cs as [|c cs IHc]; simpl; auto.
Qed.

End ForEach.

Lemma received_render_calls (k m : nat) :
  received k (VideoContext.render_calls m) = [].
Proof.
  unfold VideoContext.render_calls; simpl.
  generalize 0. induction m as [|m IH]; intros s; simpl; auto.
Qed.

Lemma STATE_eqb_eq (a b : STATE) : STATE_eqb a b = true <-> a = b.
Proof. destruct a, b; simpl; split; (reflexivity || discriminate). Qed.

(** ** One tick of a [VideoContext] *)

Section Tick.
Context {N P D : Type}.
Context {NO : SourceNode.Ops N} {PR : Renderable P} {DR : Renderable D}.

Local Abbreviation ctx := (VideoContext.t N P D).

Import VideoContext.

Lemma isStalled_true (c : ctx) :
  _isStalled c = true <->
  exists n, In n (_sourceNodes c) /\ SourceNode._isReady n = false.
Proof.
  unfold _isStalled. induction (_sourceNodes c) as [|n ns IH]; simpl.
  - split; [discriminate|]. now intros [n [[] _]].
  - destruct (SourceNode._isReady n) eqn:Er; simpl.
    + rewrite IH. split.
      * intros [m [Hin Hm]]. exists m; auto.
      * intros [m [[->|Hin] Hm]]; [congruence|]. exists m; auto.
    + split; [|reflexivity]. intros _. exists n; auto.
Qed.

Lemma isStalled_false (c : ctx) :
  _isStalled c = false <->
  forall n, In n (_sourceNodes c) -> SourceNode._isReady n = true.
Proof.
  split.
  - intros Hs n Hin. destruct (SourceNode._isReady n) eqn:Er; [reflexivity|].
    assert (_isStalled c = true) by (apply isStalled_true; eauto). congruence.
  - intros Hall. destruct (_isStalled c) eqn:Es; [|reflexivity].
    apply isStalled_true in Es. destruct Es as [n [Hin Hn]].
    rewrite (Hall n Hin) in Hn. discriminate.
Qed.

Lemma reconcile_sources (c : ctx) : _sourceNodes (reconcile c) = _sourceNodes c.
Proof.
  unfold reconcile. destruct (negb _); [|reflexivity]. now destruct (_isStalled c).
Qed.

Lemma reconcile_time (c : ctx) : _currentTime (reconcile c) = _currentTime c.
Proof.
  unfold reconcile. destruct (negb _); [|reflexivity]. now destruct (_isStalled c).
Qed.

Lemma reconcile_state (c : ctx) :
  _state (reconcile c) =
  match _state c with
  | paused => paused
  | _ => if _isStalled c then stalled else playing
  end.
Proof.
  unfold reconcile. destruct (_state c) eqn:Es; simpl; try rewrite Es; auto;
    now destruct (_isStalled c).
Qed.

Lemma duration_sources (c1 c2 : ctx) :
  _sourceNodes c1 = _sourceNodes c2 -> duration c1 = duration c2.
Proof. unfold duration. now intros ->. Qed.

Lemma advance_sources (dt : float) (c : ctx) :
  _sourceNodes (advance dt c) = _sourceNodes c.
Proof.
  unfold advance. destruct (STATE_eqb _ _); [|reflexivity].
  now destruct (JS.gt _ _).
Qed.

Lemma advance_time (dt : float) (c : ctx) :
  _currentTime (advance dt c) =
  match _state c with
  | playing => (_currentTime c + dt)%float
  | _ => _currentTime c
  end.
Proof.
  unfold advance. destruct (_state c); simpl; auto.
  now destruct (JS.gt _ _).
Qed.

Lemma advance_state (dt : float) (c : ctx) :
  _state (advance dt c) =
  match _state c with
  | playing =>
      if JS.gt (_currentTime c + dt)%float (duration c) then ended else playing
  | s => s
  end.
Proof.
  unfold advance. destruct (_state c) eqn:Es; simpl; auto.
  change (duration (with_currentTime c (_currentTime c + dt)%float))
    with (duration c).
  destruct (JS.gt _ _); simpl; auto.
Qed.

(** What a tick does once its guard has let it in. *)
Lemma tick_unfold (dt : float) (c : ctx) :
  ticking (_state c) = true ->
  let c2 := advance dt (reconcile c) in
  _update dt c =
  (mk (map (fun n => fst (dispatch_body (_state c2) (_currentTime c2) n))
           (_sourceNodes c))
      (map _render (_processingNodes c)) (_currentTime c2) (_state c2)
      (_render (_destinationNode c)),
   snd (forEach (dispatch_body (_state c2) (_currentTime c2)) 0 (_sourceNodes c))
     ++ render_calls (List.length (_processingNodes c))).
Proof.
  intros Hg c2. unfold _update. rewrite Hg. fold c2.
  unfold dispatch, render.
  assert (Hs : _sourceNodes c2 = _sourceNodes c)
    by (unfold c2; now rewrite advance_sources, reconcile_sources).
  assert (Hp : _processingNodes c2 = _processingNodes c).
  { unfold c2, advance, reconcile.
    repeat match goal with |- context [if ?b then _ else _] => destruct b end;
      reflexivity. }
  assert (Hd : _destinationNode c2 = _destinationNode c).
  { unfold c2, advance, reconcile.
    repeat match goal with |- context [if ?b then _ else _] => destruct b end;
      reflexivity. }
  rewrite Hs.
  pose proof (forEach_nodes (dispatch_body (_state c2) (_currentTime c2))
                (_sourceNodes c) 0) as Hn.
  destruct (forEach _ 0 (_sourceNodes c)) as [ns tr]; simpl in *.
  now rewrite Hn, Hp, Hd.
Qed.

Lemma tick_halted (dt : float) (c : ctx) :
  _state c = ended \/ _state c = broken -> _update dt c = (c, []).
Proof. unfold _update. now intros [-> | ->]. Qed.

Lemma tick_received (dt : float) (c : ctx) (i : nat) :
  ticking (_state c) = true ->
  let c2 := advance dt (reconcile c) in
  received i (snd (_update dt c)) =
  match nth_error (_sourceNodes c) i with
  | Some n => snd (dispatch_body (_state c2) (_currentTime c2) n)
  | None => []
  end.
Proof.
  intros Hg c2. rewrite (tick_unfold dt c Hg); simpl. fold c2.
  now rewrite received_app, received_render_calls, app_nil_r, received_forEach_0.
Qed.

Lemma tick_sources (dt : float) (c : ctx) (i : nat) (n : N) :
  ticking (_state c) = true ->
  nth_error (_sourceNodes c) i = Some n ->
  let c2 := advance dt (reconcile c) in
  nth_error (_sourceNodes (fst (_update dt c))) i =
  Some (fst (dispatch_body (_state c2) (_currentTime c2) n)).
Proof.
  intros Hg Hn c2. rewrite (tick_unfold dt c Hg); simpl. fold c2.
  now rewrite nth_error_map, Hn.
Qed.

Lemma tick_state (dt : float) (c : ctx) :
  ticking (_state c) = true ->
  _state (fst (_update dt c)) = _state (advance dt (reconcile c)).
Proof. intros Hg. now rewrite (tick_unfold dt c Hg). Qed.

Lemma tick_time (dt : float) (c : ctx) :
  ticking (_state c) = true ->
  _currentTime (fst (_update dt c)) = _currentTime (advance dt (reconcile c)).
Proof. intros Hg. now rewrite (tick_unfold dt c Hg). Qed.

(** The state in which a tick taken in [playing] or [stalled] leaves the
    context. *)
Lemma live_tick_state (dt : float) (c : ctx) :
  _state c = playing \/ _state c = stalled ->
  _state (fst (_update dt c)) =
  if _isStalled c then stalled
  else if JS.gt (_currentTime c + dt)%float (duration c) then ended
       else playing.
Proof.
  intros Hs.
  assert (Hg : ticking (_state c) = true) by (destruct Hs as [-> | ->]; reflexivity).
  rewrite (tick_state dt c Hg), advance_state, reconcile_state, reconcile_time.
  rewrite (duration_sources (reconcile c) c (reconcile_sources c)).
  destruct Hs as [-> | ->]; now destruct (_isStalled c).
Qed.

(** C1: a tick taken in [playing] or [stalled].  If some registered source
    node reports not ready, reconciliation sets the state to [stalled], the
    tick ends in [stalled], and every source node that reports ready when the
    loop polls it (line 189) receives a pause command in that tick, after its
    time update.  If every source node reports ready, reconciliation sets the
    state to [playing], and the tick ends in [playing] unless the clock has
    passed the duration. *)
Theorem tick_reconciles_readiness (dt : float) (c : ctx) :
  _state c = playing \/ _state c = stalled ->
  ((exists n, In n (_sourceNodes c) /\ SourceNode._isReady n = false) ->
   _state (reconcile c) = stalled /\
   _state (fst (_update dt c)) = stalled /\
   forall i n,
     nth_error (_sourceNodes c) i = Some n ->
     SourceNode._isReady (SourceNode._update (_currentTime c) n) = true ->
     received i (snd (_update dt c)) =
       [SourceNode.Update (_currentTime c); SourceNode.Pause] /\
     nth_error (_sourceNodes (fst (_update dt c))) i =
       Some (SourceNode._pause (SourceNode._update (_currentTime c) n)))
  /\
  ((forall n, In n (_sourceNodes c) -> SourceNode._isReady n = true) ->
   _state (reconcile c) = playing /\
   _state (fst (_update dt c)) =
     if JS.gt (_currentTime c + dt)%float (duration c) then ended else playing).
Proof.
  intros Hs.
  assert (Hg : ticking (_state c) = true) by (destruct Hs as [-> | ->]; reflexivity).
  split.
  - intros Hex. apply isStalled_true in Hex.
    assert (Hr : _state (reconcile c) = stalled).
    { rewrite reconcile_state, Hex. now destruct Hs as [-> | ->]. }
    assert (Ha : _state (advance dt (reconcile c)) = stalled)
      by now rewrite advance_state, Hr.
    assert (Ht : _currentTime (advance dt (reconcile c)) = _currentTime c)
      by now rewrite advance_time, Hr, reconcile_time.
    split; [exact Hr|]. split; [now rewrite live_tick_state, Hex|].
    intros i n Hn Hready. split.
    + rewrite (tick_received dt c i Hg), Hn, Ha, Ht.
      unfold dispatch_body; simpl. now rewrite Hready.
    + rewrite (tick_sources dt c i Hg Hn), Ha, Ht.
      unfold dispatch_body; simpl. now rewrite Hready.
  - intros Hall. apply isStalled_false in Hall. split.
    + rewrite reconcile_state, Hall. now destruct Hs as [-> | ->].
    + now rewrite live_tick_state, Hall.
Qed.

(** C7: a tick taken while the state is [paused], for every [dt] (so for
    every [dt >= 0]): [currentTime] is unchanged, the state is still
    [paused], and every registered source node receives its time update and
    then exactly one pause command. *)
Theorem paused_tick_pauses_every_source (dt : float) (c : ctx) :
  _state c = paused ->
  _currentTime (fst (_update dt c)) = _currentTime c /\
  _state (fst (_update dt c)) = paused /\
  forall i n,
    nth_error (_sourceNodes c) i = Some n ->
    received i (snd (_update dt c)) =
      [SourceNode.Update (_currentTime c); SourceNode.Pause] /\
    List.length (filter SourceNode.is_pause (received i (snd (_update dt c)))) = 1 /\
    nth_error (_sourceNodes (fst (_update dt c))) i =
      Some (SourceNode._pause (SourceNode._update (_currentTime c) n)).
Proof.
  intros Hs.
  assert (Hg : ticking (_state c) = true) by now rewrite Hs.
  assert (Hr : _state (reconcile c) = paused) by now rewrite reconcile_state, Hs.
  assert (Ha : _state (advance dt (reconcile c)) = paused)
    by now rewrite advance_state, Hr.
  assert (Ht : _currentTime (advance dt (reconcile c)) = _currentTime c)
    by now rewrite advance_time, Hr, reconcile_time.
  split; [now rewrite tick_time|].
  split; [now rewrite tick_state|].
  intros i n Hn.
  rewrite (tick_received dt c i Hg), (tick_sources dt c i Hg Hn), Hn, Ha, Ht.
  unfold dispatch_body; simpl. repeat split.
Qed.

(** C10: a tick whose state after reconciliation is [stalled] ends in
    [stalled]; a source node that reports not ready when the loop polls it
    (line 189) receives its time update and nothing else in that tick,
    neither a play nor a pause command, while a source node that reports
    ready there receives its time update and one pause command. *)
Theorem stalled_tick_spares_unready_sources (dt : float) (c : ctx) :
  ticking (_state c) = true ->
  _state (reconcile c) = stalled ->
  _state (fst (_update dt c)) = stalled /\
  forall i n,
    nth_error (_sourceNodes c) i = Some n ->
    (SourceNode._isReady (SourceNode._update (_currentTime c) n) = false ->
     received i (snd (_update dt c)) = [SourceNode.Update (_currentTime c)] /\
     filter SourceNode.is_play (received i (snd (_update dt c))) = [] /\
     filter SourceNode.is_pause (received i (snd (_update dt c))) = [] /\
     nth_error (_sourceNodes (fst (_update dt c))) i =
       Some (SourceNode._update (_currentTime c) n))
    /\
    (SourceNode._isReady (SourceNode._update (_currentTime c) n) = true ->
     received i (snd (_update dt c)) =
       [SourceNode.Update (_currentTime c); SourceNode.Pause]).
Proof.
  intros Hg Hr.
  assert (Ha : _state (advance dt (reconcile c)) = stalled)
    by now rewrite advance_state, Hr.
  assert (Ht : _currentTime (advance dt (reconcile c)) = _currentTime c)
    by now rewrite advance_time, Hr, reconcile_time.
  split; [now rewrite tick_state|].
  intros i n Hn.
  rewrite (tick_received dt c i Hg), (tick_sources dt c i Hg Hn), Hn, Ha, Ht.
  unfold dispatch_body; simpl.
  split; intros ->; simpl; repeat split.
Qed.

(** *** Two sources that are always ready, stopping at 10 and at 20 *)

Lemma steady_now (stop : float) (n : N) :
  SourceNode.steady stop n ->
  SourceNode._isReady n = true /\ SourceNode._stopTime n = stop.
Proof. intros Hn. exact (Hn []). Qed.

Lemma steady_exec (stop : float) (n : N) (cmd : SourceNode.command) :
  SourceNode.steady stop n -> SourceNode.steady stop (SourceNode.exec cmd n).
Proof. intros Hn cs. exact (Hn (cmd :: cs)). Qed.

Lemma scene_duration (t : float) (st : STATE) (c : ctx) :
  scene t st c -> duration c = 20%float.
Proof.
  intros (m1 & m2 & H1 & H2 & Hs & _ & _).
  destruct (steady_now H1) as [_ S1], (steady_now H2) as [_ S2].
  unfold duration. rewrite Hs; simpl. unfold duration_step.
  rewrite S1, S2. reflexivity.
Qed.

Lemma scene_tick (t t' : float) (c : ctx) :
  scene t playing c ->
  (t + 5)%float = t' ->
  scene t' (if JS.gt t' 20 then ended else playing) (fst (_update 5 c)).
Proof.
  intros Hsc Ht'. pose proof (scene_duration Hsc) as Hd.
  destruct Hsc as (m1 & m2 & H1 & H2 & Hs & Ht & Hst).
  destruct (steady_now H1) as [R1 _], (steady_now H2) as [R2 _].
  assert (Hg : ticking (_state c) = true) by now rewrite Hst.
  assert (Hns : _isStalled c = false).
  { apply isStalled_false. rewrite Hs. intros n [<-|[<-|[]]]; assumption. }
  assert (Hr : _state (reconcile c) = playing)
    by now rewrite reconcile_state, Hst, Hns.
  assert (Hq : _state (advance 5 (reconcile c)) =
               if JS.gt t' 20 then ended else playing).
  { rewrite advance_state, Hr, reconcile_time, Ht, Ht'.
    now rewrite (duration_sources (reconcile c) c (reconcile_sources c)), Hd. }
  assert (Hx : _currentTime (advance 5 (reconcile c)) = t')
    by now rewrite advance_time, Hr, reconcile_time, Ht.
  rewrite (tick_unfold 5 c Hg); simpl. rewrite Hq, Hx, Hs; simpl.
  unfold scene, dispatch_body; simpl.
  destruct (JS.gt t' 20); simpl.
  - exists (SourceNode._update t' m1), (SourceNode._update t' m2).
    split; [apply (steady_exec (SourceNode.Update t') H1)|].
    split; [apply (steady_exec (SourceNode.Update t') H2)|].
    repeat split; reflexivity.
  - exists (SourceNode._play (SourceNode._update t' m1)),
           (SourceNode._play (SourceNode._update t' m2)).
    split; [apply (steady_exec SourceNode.Play
                     (steady_exec (SourceNode.Update t') H1))|].
    split; [apply (steady_exec SourceNode.Play
                     (steady_exec (SourceNode.Update t') H2))|].
    repeat split; reflexivity.
Qed.

Lemma ticks_next (k : nat) (dt : float) (c : ctx) :
  fst (ticks (S k) dt c) = fst (ticks k dt (fst (_update dt c))).
Proof.
  simpl. destruct (_update dt c) as [c1 tr1]; simpl.
  now destruct (ticks k dt c1).
Qed.

Lemma ticks_halted (k : nat) (dt : float) (c : ctx) :
  _state c = ended \/ _state c = broken -> fst (ticks k dt c) = c.
Proof.
  intros Hs. induction k as [|k IH]; [reflexivity|].
  now rewrite ticks_next, (tick_halted dt c Hs).
Qed.

Lemma scene_duration_forever (k : nat) :
  forall (t : float) (st : STATE) (c : ctx),
    scene t st c -> st = playing \/ st = ended ->
    duration (fst (ticks k 5 c)) = 20%float.
Proof.
  induction k as [|k IH]; intros t st c Hsc Hst.
  - exact (scene_duration Hsc).
  - destruct Hst as [-> | ->].
    + rewrite ticks_next.
      apply (IH _ _ _ (scene_tick Hsc eq_refl)).
      destruct (JS.gt _ _); auto.
    + rewrite ticks_halted; [exact (scene_duration Hsc)|].
      destruct Hsc as (m1 & m2 & _ & _ & _ & _ & ->). now left.
Qed.

Lemma scene_play (n1 n2 : N) (ps : list P) (d : D) :
  SourceNode.steady 10 n1 -> SourceNode.steady 20 n2 ->
  scene 0 playing (fst (play (mk [n1; n2] ps 0%float paused d))).
Proof.
  intros H1 H2. exists (SourceNode._play n1), (SourceNode._play n2).
  split; [apply (steady_exec SourceNode.Play H1)|].
  split; [apply (steady_exec SourceNode.Play H2)|].
  repeat split; reflexivity.
Qed.

Lemma scene_time (t : float) (st : STATE) (c : ctx) :
  scene t st c -> _currentTime c = t /\ _state c = st.
Proof. intros (m1 & m2 & _ & _ & _ & Ht & Hs). now split. Qed.

(** C2: a tick whose state after reconciliation is [playing] advances
    [currentTime] by exactly [dt] and, when the advanced [currentTime] is
    strictly greater than the duration, ends in [ended] (otherwise in
    [playing]).  With two always-ready sources stopping at 10 and 20, from
    [currentTime = 0] and after [play()], ticks of [dt = 5] give the times
    5, 10, 15, 20 in state [playing], then 25 in state [ended], where the
    context stays; the duration is 20 after any number of ticks. *)
Theorem playing_tick_advances_clock :
  (forall (dt : float) (c : ctx),
     ticking (_state c) = true ->
     _state (reconcile c) = playing ->
     _currentTime (fst (_update dt c)) = (_currentTime c + dt)%float /\
     (JS.gt (_currentTime c + dt)%float (duration c) = true ->
      _state (fst (_update dt c)) = ended) /\
     (JS.gt (_currentTime c + dt)%float (duration c) = false ->
      _state (fst (_update dt c)) = playing))
  /\
  (forall (n1 n2 : N) (ps : list P) (d : D),
     SourceNode.steady 10 n1 -> SourceNode.steady 20 n2 ->
     let c0 := fst (play (mk [n1; n2] ps 0%float paused d)) in
     _state c0 = playing /\
     (forall k, duration (fst (ticks k 5 c0)) = 20%float) /\
     map (fun k => _currentTime (fst (ticks k 5 c0))) [0; 1; 2; 3; 4; 5]
       = [0; 5; 10; 15; 20; 25]%float /\
     map (fun k => _state (fst (ticks k 5 c0))) [0; 1; 2; 3; 4; 5]
       = [playing; playing; playing; playing; playing; ended] /\
     (forall k, 5 <= k ->
        _state (fst (ticks k 5 c0)) = ended /\
        _currentTime (fst (ticks k 5 c0)) = 25%float)).
Proof.
  split.
  - intros dt c Hg Hr.
    rewrite (tick_time dt c Hg), (tick_state dt c Hg).
    rewrite advance_time, advance_state, Hr, reconcile_time.
    rewrite (duration_sources (reconcile c) c (reconcile_sources c)).
    split; [reflexivity|]. split; intros ->; reflexivity.
  - intros n1 n2 ps d H1 H2 c0.
    pose proof (scene_play ps d H1 H2) as S0. fold c0 in S0.
    pose proof (scene_tick S0 eq_refl) as S1.
    change (if JS.gt (0 + 5)%float 20 then ended else playing) with playing in S1.
    pose proof (scene_tick S1 eq_refl) as S2.
    change (if JS.gt (0 + 5 + 5)%float 20 then ended else playing) with playing in S2.
    pose proof (scene_tick S2 eq_refl) as S3.
    change (if JS.gt (0 + 5 + 5 + 5)%float 20 then ended else playing)
      with playing in S3.
    pose proof (scene_tick S3 eq_refl) as S4.
    change (if JS.gt (0 + 5 + 5 + 5 + 5)%float 20 then ended else playing)
      with playing in S4.
    pose proof (scene_tick S4 eq_refl) as S5.
    change (if JS.gt (0 + 5 + 5 + 5 + 5 + 5)%float 20 then ended else playing)
      with ended in S5.
    assert (E5 : fst (ticks 5 5 c0)
                 = fst (_update 5 (fst (_update 5 (fst (_update 5
                     (fst (_update 5 (fst (_update 5 c0))))))))))
      by (now rewrite !ticks_next).
    split; [exact (proj2 (scene_time S0))|].
    split; [intros k; apply (scene_duration_forever k S0); now left|].
    split; [|split].
    + cbn [map]. rewrite !ticks_next. cbn [ticks fst].
      rewrite (proj1 (scene_time S0)), (proj1 (scene_time S1)),
        (proj1 (scene_time S2)), (proj1 (scene_time S3)),
        (proj1 (scene_time S4)), (proj1 (scene_time S5)).
      reflexivity.
    + cbn [map]. rewrite !ticks_next. cbn [ticks fst].
      now rewrite (proj2 (scene_time S0)), (proj2 (scene_time S1)),
        (proj2 (scene_time S2)), (proj2 (scene_time S3)),
        (proj2 (scene_time S4)), (proj2 (scene_time S5)).
    + intros k Hk. replace k with (5 + (k - 5)) by lia.
      assert (Hadd : forall a b (x : ctx),
                 fst (ticks (a + b) 5 x) = fst (ticks b 5 (fst (ticks a 5 x)))).
      { induction a as [|a IH]; intros b x; [reflexivity|].
        change (S a + b) with (S (a + b)). now rewrite !ticks_next, IH. }
      rewrite Hadd, E5, ticks_halted
        by (left; exact (proj2 (scene_time S5))).
      destruct (scene_time S5) as [-> ->]. split; reflexivity.
Qed.

(** C5 (amended): a tick taken while the state is [ended] or [broken] does
    nothing at all, so no render pass occurs; the render pass (the
    destination node, then every processing node in creation order) closes
    every tick taken in [playing], [stalled] or [paused], and only the calls
    to the source nodes come before it. *)
Theorem render_pass_follows_the_guard (dt : float) (c : ctx) :
  (_state c = ended \/ _state c = broken -> _update dt c = (c, []))
  /\
  (_state c = playing \/ _state c = stalled \/ _state c = paused ->
   exists pre,
     snd (_update dt c) = pre ++ render_calls (List.length (_processingNodes c)) /\
     filter is_render pre = [] /\
     _destinationNode (fst (_update dt c)) = _render (_destinationNode c) /\
     _processingNodes (fst (_update dt c)) = map _render (_processingNodes c)).
Proof.
  split; [apply tick_halted|].
  intros Hs.
  assert (Hg : ticking (_state c) = true)
    by (destruct Hs as [-> | [-> | ->]]; reflexivity).
  rewrite (tick_unfold dt c Hg); simpl.
  eexists; split; [reflexivity|].
  split; [apply forEach_no_render|]. now split.
Qed.

(** C6 (amended): [ended] is as sticky as [broken]: a tick taken in either
    leaves the whole context as it was, whatever the sources report.  A tick
    taken in [paused] leaves the state [paused].  Only [playing] and
    [stalled] are recomputed by a tick, from the readiness of the sources,
    the clock and the duration, and not from which of the two the state
    was. *)
Theorem only_live_states_are_recomputed (dt : float) (c : ctx) :
  (_state c = ended \/ _state c = broken -> fst (_update dt c) = c)
  /\
  (_state c = paused -> _state (fst (_update dt c)) = paused)
  /\
  (_state c = playing \/ _state c = stalled ->
   _state (fst (_update dt c)) =
     if _isStalled c then stalled
     else if JS.gt (_currentTime c + dt)%float (duration c) then ended
          else playing).
Proof.
  split; [|split].
  - intros Hs. now rewrite (tick_halted dt c Hs).
  - intros Hs.
    assert (Hg : ticking (_state c) = true) by now rewrite Hs.
    now rewrite (tick_state dt c Hg), advance_state, reconcile_state, Hs.
  - apply live_tick_state.
Qed.

End Tick.

(** ** Seeking *)

Section Seek.
Context {N P D : Type}.
Context {NO : SourceNode.Ops N} {PR : Renderable P} {DR : Renderable D}.
Context {H : JS.Host}.

Local Abbreviation ctx := (VideoContext.t N P D).

Import VideoContext.

Lemma set_currentTime_unfold (v : JS.value) (c : ctx) :
  set_currentTime v c =
  (mk (map (SourceNode._seek (coerce v)) (_sourceNodes c)) (_processingNodes c)
      (coerce v) (_state c) (_destinationNode c),
   snd (forEach (fun n => (SourceNode._seek (coerce v) n,
                           [SourceNode.Seek (coerce v)]))
                0 (_sourceNodes c))).
Proof.
  unfold set_currentTime.
  pose proof (forEach_nodes
                (fun n => (SourceNode._seek (coerce v) n,
                           [SourceNode.Seek (coerce v)]))
                (_sourceNodes c) 0) as Hn.
  destruct (forEach _ 0 (_sourceNodes c)) as [ns tr]; simpl in *.
  now rewrite Hn.
Qed.

Lemma set_currentTime_received (v : JS.value) (c : ctx) (i : nat) (n : N) :
  nth_error (_sourceNodes c) i = Some n ->
  received i (snd (set_currentTime v c)) = [SourceNode.Seek (coerce v)] /\
  nth_error (_sourceNodes (fst (set_currentTime v c))) i =
    Some (SourceNode._seek (coerce v) n).
Proof.
  intros Hn. rewrite set_currentTime_unfold; simpl.
  now rewrite received_forEach_0, nth_error_map, Hn.
Qed.

(** C3 (amended): a call of [setCurrentTime] with a string that fails the
    coercion ([parseFloat] gives [NaN]) does not fail and is not without
    effect: it completes, [currentTime] becomes [NaN], the playback state is
    kept, and every source node receives one seek command, to [NaN]. *)
Theorem failed_coercion_seeks_to_NaN (s : string) (c : ctx) :
  JS.parseFloat s = nan ->
  _currentTime (fst (set_currentTime (JS.Str s) c)) = nan /\
  _state (fst (set_currentTime (JS.Str s) c)) = _state c /\
  forall i n,
    nth_error (_sourceNodes c) i = Some n ->
    received i (snd (set_currentTime (JS.Str s) c)) = [SourceNode.Seek nan] /\
    nth_error (_sourceNodes (fst (set_currentTime (JS.Str s) c))) i =
      Some (SourceNode._seek nan n).
Proof.
  intros Hnan.
  split; [now rewrite set_currentTime_unfold; simpl|].
  split; [now rewrite set_currentTime_unfold|].
  intros i n Hn.
  destruct (set_currentTime_received (JS.Str s) c i Hn) as [Hr Hs].
  simpl in Hr, Hs. rewrite Hnan in Hr, Hs. now split.
Qed.

(** C8: [setCurrentTime] of a string, primitive or object, is
    [setCurrentTime] of the number that [parseFloat] reads from it: the same
    context and the same calls result.  Where [parseFloat "12.5"] is 12.5,
    [setCurrentTime("12.5")] is [setCurrentTime(12.5)]: [currentTime] becomes
    12.5 and every source node receives [seek(12.5)], once. *)
Theorem numeric_string_seek_is_numeric_seek :
  (forall (s : string) (c : ctx),
     set_currentTime (JS.Str s) c = set_currentTime (JS.Number (JS.parseFloat s)) c /\
     set_currentTime (JS.StringObject s) c =
       set_currentTime (JS.Number (JS.parseFloat s)) c)
  /\
  (JS.parseFloat "12.5" = 12.5%float ->
   forall c : ctx,
     set_currentTime (JS.Str "12.5") c = set_currentTime (JS.Number 12.5) c /\
     _currentTime (fst (set_currentTime (JS.Str "12.5") c)) = 12.5%float /\
     _currentTime (fst (set_currentTime (JS.Number 12.5) c)) = 12.5%float /\
     forall i n,
       nth_error (_sourceNodes c) i = Some n ->
       received i (snd (set_currentTime (JS.Str "12.5") c))
         = [SourceNode.Seek 12.5] /\
       received i (snd (set_currentTime (JS.Number 12.5) c))
         = [SourceNode.Seek 12.5] /\
       nth_error (_sourceNodes (fst (set_currentTime (JS.Str "12.5") c))) i
         = Some (SourceNode._seek 12.5 n)).
Proof.
  split.
  - intros s c. split; reflexivity.
  - intros Hp c.
    assert (E : set_currentTime (JS.Str "12.5") c
                = set_currentTime (JS.Number 12.5) c).
    { unfold set_currentTime; simpl. now rewrite Hp. }
    split; [exact E|]. rewrite E.
    split; [now rewrite set_currentTime_unfold|].
    split; [now rewrite set_currentTime_unfold|].
    intros i n Hn.
    destruct (set_currentTime_received (JS.Number 12.5) c i Hn) as [Hr Hs].
    now repeat split.
Qed.

End Seek.

(** ** The order on numbers *)

Unset Implicit Arguments.

Section NumberOrder.

Lemma SFcompare_swap (a b : spec_float) :
  SFcompare b a = option_map CompOpp (SFcompare a b).
Proof.
  destruct a as [[]|[]| |[] ma ea], b as [[]|[]| |[] mb eb]; simpl; try reflexivity;
    rewrite (Z.compare_antisym ea eb); destruct (Z.compare ea eb); simpl;
    try reflexivity;
    change (Pos.compare_cont Eq) with Pos.compare;
    rewrite (Pos.compare_antisym ma mb); now destruct (Pos.compare ma mb).
Qed.

Lemma SFcompare_refl (a : spec_float) :
  a <> S754_nan -> SFcompare a a = Some Eq.
Proof.
  destruct a as [[]|[]| |[] m e]; simpl; intros Hn; try reflexivity;
    try congruence; rewrite Z.compare_refl;
    change (Pos.compare_cont Eq m m) with (Pos.compare m m);
    now rewrite Pos.compare_refl.
Qed.

Lemma SFcompare_total (a b : spec_float) :
  a <> S754_nan -> b <> S754_nan -> exists o, SFcompare a b = Some o.
Proof.
  destruct a as [[]|[]| |[] ma ea], b as [[]|[]| |[] mb eb]; simpl;
    intros Ha Hb; try congruence; eauto.
Qed.

Lemma SFleb_trans (a b c : spec_float) :
  SFleb a b = true -> SFleb b c = true -> SFleb a c = true.
Proof.
  unfold SFleb.
  destruct a as [[]|[]| |[] ma ea], b as [[]|[]| |[] mb eb],
           c as [[]|[]| |[] mc ec]; simpl; try reflexivity; try discriminate;
    change (Pos.compare_cont Eq) with Pos.compare;
    destruct (Z.compare_spec ea eb), (Z.compare_spec eb ec),
             (Z.compare_spec ea ec); simpl;
    try reflexivity; try discriminate; try lia;
    destruct (Pos.compare_spec ma mb), (Pos.compare_spec mb mc),
             (Pos.compare_spec ma mc); simpl;
    try reflexivity; try discriminate; try lia.
Qed.

Lemma SFleb_number (w a : spec_float) : SFleb w a = true -> a <> S754_nan.
Proof. intros Hle ->. unfold SFleb in Hle. now destruct w. Qed.

Lemma leb_trans (a b c : float) :
  (a <=? b)%float = true -> (b <=? c)%float = true -> (a <=? c)%float = true.
Proof. rewrite !FloatAxioms.leb_spec. apply SFleb_trans. Qed.

Lemma gt_leb (a b : float) : JS.gt a b = true -> (b <=? a)%float = true.
Proof.
  unfold JS.gt. rewrite FloatAxioms.ltb_spec, FloatAxioms.leb_spec. unfold SFltb, SFleb.
  now destruct (SFcompare _ _) as [[]|].
Qed.

Lemma leb_refl (w a : float) :
  (w <=? a)%float = true -> (a <=? a)%float = true /\ (a =? a)%float = true.
Proof.
  rewrite !FloatAxioms.leb_spec, FloatAxioms.eqb_spec. intros Hw. unfold SFleb, SFeqb.
  now rewrite (SFcompare_refl _ (SFleb_number _ _ Hw)).
Qed.

Lemma not_gt_leb (w w' a b : float) :
  (w <=? a)%float = true -> (w' <=? b)%float = true ->
  JS.gt a b = false -> (a <=? b)%float = true.
Proof.
  unfold JS.gt. rewrite !FloatAxioms.leb_spec, FloatAxioms.ltb_spec. intros Ha Hb.
  destruct (SFcompare_total _ _ (SFleb_number _ _ Ha) (SFleb_number _ _ Hb))
    as [o Ho].
  unfold SFltb, SFleb. rewrite (SFcompare_swap (Prim2SF a) (Prim2SF b)), Ho.
  now destruct o.
Qed.

Lemma not_gt_zero (a : float) :
  (0 <=? a)%float = true -> JS.gt a 0 = false -> (0 =? a)%float = true.
Proof.
  unfold JS.gt. rewrite FloatAxioms.leb_spec, FloatAxioms.ltb_spec, FloatAxioms.eqb_spec.
  unfold SFleb, SFltb, SFeqb. now destruct (SFcompare _ _) as [[]|].
Qed.

Lemma leb_antisym (a b : float) :
  (a <=? b)%float = true -> (b <=? a)%float = true -> (a =? b)%float = true.
Proof.
  rewrite !FloatAxioms.leb_spec, FloatAxioms.eqb_spec. unfold SFleb, SFeqb.
  rewrite (SFcompare_swap (Prim2SF a) (Prim2SF b)).
  now destruct (SFcompare (Prim2SF a) (Prim2SF b)) as [[]|].
Qed.

End NumberOrder.

(** ** The duration *)

Section Duration.
Context {N P D : Type}.
Context {NO : SourceNode.Ops N}.

Local Abbreviation ctx := (VideoContext.t N P D).

Import VideoContext.

Lemma duration_push (c : ctx) (n : N) :
  duration (createVideoSourceNode n c) = duration_step (duration c) n.
Proof. unfold duration, createVideoSourceNode; simpl. now rewrite fold_left_app. Qed.

End Duration.

(** ** The frame loop *)

Section FrameLoop.
Context {U : Type} {UU : Scheduler.Updateable U}.

Import Scheduler.

Lemma run_returns (dt : float) (us : list U) :
  (forall u, In u us -> snd (_update dt u) = None) ->
  forall i,
    run dt i us =
    (map (fun u => fst (_update dt u)) us, seq i (List.length us), None).
Proof.
  induction us as [|u us IH]; intros Hok i; [reflexivity|].
  cbn [run map List.length seq].
  assert (Hu : snd (_update dt u) = None) by (apply Hok; now left).
  destruct (_update dt u) as [u' [e|]]; [discriminate|].
  rewrite (IH (fun v Hv => Hok v (or_intror Hv)) (S i)). reflexivity.
Qed.

Lemma run_throws (dt : float) (pre : list U) (u : U) (post : list U)
    (e : JS.exn) :
  (forall p, In p pre -> snd (_update dt p) = None) ->
  snd (_update dt u) = Some e ->
  forall i,
    run dt i (pre ++ u :: post) =
    (map (fun p => fst (_update dt p)) pre ++ fst (_update dt u) :: post,
     seq i (S (List.length pre)), Some e).
Proof.
  induction pre as [|p pre IH]; intros Hok Hu i.
  - cbn [app run map List.length seq].
    destruct (_update dt u) as [u' [e'|]]; simpl in *; congruence.
  - cbn [app run map List.length].
    assert (Hp : snd (_update dt p) = None) by (apply Hok; now left).
    destruct (_update dt p) as [p' [e'|]]; [discriminate|].
    rewrite (IH (fun v Hv => Hok v (or_intror Hv)) Hu (S i)). reflexivity.
Qed.

(** C4 (amended): an exception raised inside one updateable's [_update(dt)]
    leaves [update] at once: the updateables registered before it have been
    invoked, those registered after it are not invoked in that pass, and the
    next frame callback is not requested; [previousTime] is left as line 13
    set it, the assignment of line 18 being skipped.  When no updateable
    raises, every updateable is invoked once, in registration order, and the
    next frame callback is requested. *)
Theorem thrown_tick_stops_the_frame_loop (time : option float) (s : t U) :
  let previous :=
    match previousTime s with
    | None => time
    | Some p => Some p
    end in
  let dt := delta time previous in
  (forall pre u post e,
     updateables s = pre ++ u :: post ->
     (forall p, In p pre -> snd (_update dt p) = None) ->
     snd (_update dt u) = Some e ->
     update time s =
       mkOutcome
         (mk (map (fun p => fst (_update dt p)) pre ++ fst (_update dt u) :: post)
             previous (frameRequests s))
         (seq 0 (S (List.length pre))) (Some e) /\
     frameRequests (after (update time s)) = frameRequests s /\
     forall j, List.length pre < j -> ~ In j (invoked (update time s)))
  /\
  ((forall u, In u (updateables s) -> snd (_update dt u) = None) ->
   update time s =
     mkOutcome
       (mk (map (fun u => fst (_update dt u)) (updateables s)) time
           (S (frameRequests s)))
       (seq 0 (List.length (updateables s))) None).
Proof.
  intros previous dt. split.
  - intros pre u post e Hus Hok Hu.
    assert (E : update time s =
                mkOutcome
                  (mk (map (fun p => fst (_update dt p)) pre
                         ++ fst (_update dt u) :: post)
                      previous (frameRequests s))
                  (seq 0 (S (List.length pre))) (Some e)).
    { unfold update. fold previous. fold dt.
      now rewrite Hus, (run_throws dt pre u post e Hok Hu 0). }
    split; [exact E|]. rewrite E. split; [reflexivity|].
    intros j Hj Hin. cbn [invoked] in Hin. apply in_seq in Hin. lia.
  - intros Hok. unfold update. fold previous. fold dt.
    now rewrite (run_returns dt (updateables s) Hok 0).
Qed.

End FrameLoop.

(** The call of line 21 starts the loop with no time sample; the first frame
    callback then sees [dt = 0], and the next one the elapsed seconds. *)
Example update_at_load :
  Scheduler.update None (Scheduler.initial (U := Probe.widget))
  = Scheduler.mkOutcome (Scheduler.mk [] None 1) [] None.
Proof. reflexivity. Qed.

Example delta_first_frame :
  Scheduler.delta (Some 100%float) (Some 100%float) = 0%float /\
  Scheduler.delta (Some 1600%float) (Some 100%float) = 1.5%float.
Proof. split; reflexivity. Qed.

(** ** The program on sample inputs *)

Lemma probe_run (cs : list SourceNode.command) :
  forall n : Probe.source,
    Probe.ready (SourceNode.run cs n) = Probe.ready n /\
    Probe.stopTime (SourceNode.run cs n) = Probe.stopTime n.
Proof.
  induction cs as [|c cs IH]; intros n; [now split|].
  change (SourceNode.run (c :: cs) n) with (SourceNode.run cs (SourceNode.exec c n)).
  destruct (IH (SourceNode.exec c n)) as [-> ->]. now destruct c.
Qed.

Lemma probe_steady (stop : float) :
  SourceNode.steady stop (Probe.node true stop).
Proof. intros cs. exact (probe_run cs (Probe.node true stop)). Qed.

(** Counterexample to C3 as stated: [setCurrentTime("abc")] on a context at
    time 3 with one source returns normally, moves [currentTime] to [NaN] and
    sends the source [seek(NaN)]. *)
Lemma seek_abc_is_not_rejected :
  JS.parseFloat "abc" = nan /\
  VideoContext._currentTime
    (fst (VideoContext.set_currentTime (JS.Str "abc")
            (Probe.stage paused 3 [Probe.node true 10]))) = nan /\
  VideoContext._currentTime
    (fst (VideoContext.set_currentTime (JS.Str "abc")
            (Probe.stage paused 3 [Probe.node true 10])))
    <> VideoContext._currentTime (Probe.stage paused 3 [Probe.node true 10]) /\
  received 0
    (snd (VideoContext.set_currentTime (JS.Str "abc")
            (Probe.stage paused 3 [Probe.node true 10])))
    = [SourceNode.Seek nan].
Proof.
  repeat split. intros E. apply (f_equal is_nan) in E. vm_compute in E.
  discriminate.
Qed.

(** Counterexample to C4 as stated: with three updateables of which the
    second throws, [update] ends by that exception, the third updateable is
    not invoked and keeps its state, and no frame callback is requested. *)
Lemma faulty_widget_ends_the_loop :
  Scheduler.thrown (Scheduler.update (Some 16%float) Probe.widgets)
    = Some "boom"%string /\
  Scheduler.invoked (Scheduler.update (Some 16%float) Probe.widgets) = [0; 1] /\
  ~ In 2 (Scheduler.invoked (Scheduler.update (Some 16%float) Probe.widgets)) /\
  Scheduler.updateables
    (Scheduler.after (Scheduler.update (Some 16%float) Probe.widgets))
    = [Probe.Counter 1; Probe.Faulty "boom"; Probe.Counter 0] /\
  Scheduler.frameRequests
    (Scheduler.after (Scheduler.update (Some 16%float) Probe.widgets))
    = Scheduler.frameRequests Probe.widgets.
Proof.
  repeat split. intros [E|[E|[]]]; discriminate.
Qed.

(** Counterexample to C5 as stated: a tick taken in [ended], and one taken in
    [broken], makes no call at all; the destination node is not rendered. *)
Lemma halted_tick_renders_nothing :
  snd (VideoContext._update 1 (Probe.stage ended 0 [Probe.node true 10])) = [] /\
  snd (VideoContext._update 1 (Probe.stage broken 0 [Probe.node true 10])) = [] /\
  ~ In DestinationRender
      (snd (VideoContext._update 1 (Probe.stage ended 0 [Probe.node true 10]))) /\
  Probe.renders
    (VideoContext._destinationNode
       (fst (VideoContext._update 1 (Probe.stage ended 0 [Probe.node true 10]))))
    = 0.
Proof. repeat split. intros []. Qed.

(** Counterexample to C6 as stated: in [ended], with its only source ready
    and the clock at 0 of 10, a tick leaves the state [ended], where the
    reconciliation of the same inputs gives [playing], as does the tick
    taken in [playing]. *)
Lemma ended_state_is_frozen :
  VideoContext._isStalled (Probe.stage ended 0 [Probe.node true 10]) = false /\
  VideoContext._state
    (fst (VideoContext._update 1 (Probe.stage ended 0 [Probe.node true 10])))
    = ended /\
  VideoContext._state
    (VideoContext.advance 1
       (VideoContext.reconcile (Probe.stage ended 0 [Probe.node true 10])))
    = playing /\
  VideoContext._state
    (fst (VideoContext._update 1 (Probe.stage playing 0 [Probe.node true 10])))
    = playing.
Proof. repeat split. Qed.

(** *** The theorems at sample inputs *)

Lemma tick_reconciles_readiness_witness :
  VideoContext._state
    (fst (VideoContext._update 1
            (Probe.stage playing 0 [Probe.node false 10; Probe.node true 20])))
    = stalled /\
  received 1
    (snd (VideoContext._update 1
            (Probe.stage playing 0 [Probe.node false 10; Probe.node true 20])))
    = [SourceNode.Update 0; SourceNode.Pause] /\
  VideoContext._state
    (fst (VideoContext._update 1
            (Probe.stage stalled 0 [Probe.node true 10; Probe.node true 20])))
    = playing.
Proof.
  destruct (tick_reconciles_readiness 1
              (Probe.stage playing 0 [Probe.node false 10; Probe.node true 20])
              (or_introl eq_refl)) as [Hstalled _].
  destruct Hstalled as (_ & Hs & Hp).
  { exists (Probe.node false 10). split; [now left|reflexivity]. }
  destruct (tick_reconciles_readiness 1
              (Probe.stage stalled 0 [Probe.node true 10; Probe.node true 20])
              (or_intror eq_refl)) as [_ Hplaying].
  destruct Hplaying as [_ Hq].
  { intros n [<-|[<-|[]]]; reflexivity. }
  split; [exact Hs|].
  split; [exact (proj1 (Hp 1 (Probe.node true 20) eq_refl eq_refl))|exact Hq].
Defined.

Lemma playing_tick_advances_clock_witness :
  VideoContext._currentTime
    (fst (VideoContext._update 5
            (Probe.stage playing 20 [Probe.node true 10; Probe.node true 20])))
    = 25%float /\
  VideoContext._state
    (fst (VideoContext._update 5
            (Probe.stage playing 20 [Probe.node true 10; Probe.node true 20])))
    = ended /\
  VideoContext._state
    (fst (VideoContext.ticks 5 5
            (fst (VideoContext.play
                    (Probe.stage paused 0 [Probe.node true 10; Probe.node true 20])))))
    = ended /\
  VideoContext.duration
    (fst (VideoContext.ticks 3 5
            (fst (VideoContext.play
                    (Probe.stage paused 0 [Probe.node true 10; Probe.node true 20])))))
    = 20%float.
Proof.
  destruct (playing_tick_advances_clock
              (N := Probe.source) (P := Probe.surface) (D := Probe.surface))
    as [Hgeneral Hscenario].
  destruct (Hgeneral 5%float
              (Probe.stage playing 20 [Probe.node true 10; Probe.node true 20])
              eq_refl eq_refl) as (Ht & He & _).
  destruct (Hscenario (Probe.node true 10) (Probe.node true 20)
              [Probe.mkSurface 0] (Probe.mkSurface 0)
              (probe_steady 10) (probe_steady 20)) as (_ & Hd & _ & _ & Hend).
  split; [exact Ht|]. split; [exact (He eq_refl)|].
  split; [exact (proj1 (Hend 5 (le_n 5)))|exact (Hd 3)].
Defined.

Lemma failed_coercion_seeks_to_NaN_witness :
  VideoContext._currentTime
    (fst (VideoContext.set_currentTime (JS.Str "abc")
            (Probe.stage paused 3 [Probe.node true 10]))) = nan /\
  received 0
    (snd (VideoContext.set_currentTime (JS.Str "abc")
            (Probe.stage paused 3 [Probe.node true 10])))
    = [SourceNode.Seek nan].
Proof.
  destruct (failed_coercion_seeks_to_NaN (H := Probe.host) "abc"
              (Probe.stage paused 3 [Probe.node true 10]) eq_refl)
    as (Ht & _ & Hs).
  split; [exact Ht|exact (proj1 (Hs 0 (Probe.node true 10) eq_refl))].
Defined.

Lemma thrown_tick_stops_the_frame_loop_witness :
  Scheduler.update (Some 16%float) Probe.widgets =
  Scheduler.mkOutcome
    (Scheduler.mk [Probe.Counter 1; Probe.Faulty "boom"; Probe.Counter 0]
                  (Some 0%float) 0)
    [0; 1] (Some "boom"%string).
Proof.
  destruct (thrown_tick_stops_the_frame_loop (Some 16%float) Probe.widgets)
    as [Hthrow _].
  exact (proj1 (Hthrow [Probe.Counter 0] (Probe.Faulty "boom") [Probe.Counter 0]
                  "boom"%string eq_refl
                  (fun p Hp => match Hp with
                               | or_introl E => match E with eq_refl => eq_refl end
                               | or_intror F => match F with end
                               end)
                  eq_refl)).
Defined.

Lemma render_pass_follows_the_guard_witness :
  VideoContext._update 1 (Probe.stage ended 0 [Probe.node true 10])
    = (Probe.stage ended 0 [Probe.node true 10], []) /\
  exists pre,
    snd (VideoContext._update 1 (Probe.stage paused 0 [Probe.node true 10]))
      = pre ++ [DestinationRender; ProcessingRender 0].
Proof.
  destruct (render_pass_follows_the_guard 1
              (Probe.stage ended 0 [Probe.node true 10])) as [Hhalt _].
  destruct (render_pass_follows_the_guard 1
              (Probe.stage paused 0 [Probe.node true 10])) as [_ Hlive].
  split; [exact (Hhalt (or_introl eq_refl))|].
  destruct (Hlive (or_intror (or_intror eq_refl))) as (pre & Hpre & _).
  exists pre. exact Hpre.
Defined.

Lemma only_live_states_are_recomputed_witness :
  fst (VideoContext._update 1 (Probe.stage ended 0 [Probe.node true 10]))
    = Probe.stage ended 0 [Probe.node true 10] /\
  VideoContext._state
    (fst (VideoContext._update 1 (Probe.stage paused 0 [Probe.node false 10])))
    = paused /\
  VideoContext._state
    (fst (VideoContext._update 1 (Probe.stage stalled 0 [Probe.node true 10])))
    = playing.
Proof.
  destruct (only_live_states_are_recomputed 1
              (Probe.stage ended 0 [Probe.node true 10])) as (He & _ & _).
  destruct (only_live_states_are_recomputed 1
              (Probe.stage paused 0 [Probe.node false 10])) as (_ & Hp & _).
  destruct (only_live_states_are_recomputed 1
              (Probe.stage stalled 0 [Probe.node true 10])) as (_ & _ & Hl).
  split; [exact (He (or_introl eq_refl))|].
  split; [exact (Hp eq_refl)|exact (Hl (or_intror eq_refl))].
Defined.

Lemma paused_tick_pauses_every_source_witness :
  VideoContext._currentTime
    (fst (VideoContext._update 5
            (Probe.stage paused 3 [Probe.node true 10; Probe.node false 20])))
    = 3%float /\
  received 1
    (snd (VideoContext._update 5
            (Probe.stage paused 3 [Probe.node true 10; Probe.node false 20])))
    = [SourceNode.Update 3; SourceNode.Pause].
Proof.
  destruct (paused_tick_pauses_every_source 5
              (Probe.stage paused 3 [Probe.node true 10; Probe.node false 20])
              eq_refl) as (Ht & _ & Hs).
  split; [exact Ht|exact (proj1 (Hs 1 (Probe.node false 20) eq_refl))].
Defined.

Lemma numeric_string_seek_is_numeric_seek_witness :
  VideoContext.set_currentTime (JS.Str "12.5")
    (Probe.stage paused 3 [Probe.node true 10])
  = VideoContext.set_currentTime (JS.Number 12.5)
      (Probe.stage paused 3 [Probe.node true 10]) /\
  VideoContext._currentTime
    (fst (VideoContext.set_currentTime (JS.Str "12.5")
            (Probe.stage paused 3 [Probe.node true 10]))) = 12.5%float.
Proof.
  destruct (numeric_string_seek_is_numeric_seek
              (N := Probe.source) (P := Probe.surface) (D := Probe.surface)
              (H := Probe.host))
    as [_ Hs].
  destruct (Hs eq_refl (Probe.stage paused 3 [Probe.node true 10]))
    as (He & Ht & _).
  split; [exact He|exact Ht].
Defined.

Lemma stalled_tick_spares_unready_sources_witness :
  received 0
    (snd (VideoContext._update 1
            (Probe.stage playing 0 [Probe.node false 10; Probe.node true 20])))
    = [SourceNode.Update 0] /\
  received 1
    (snd (VideoContext._update 1
            (Probe.stage playing 0 [Probe.node false 10; Probe.node true 20])))
    = [SourceNode.Update 0; SourceNode.Pause].
Proof.
  destruct (stalled_tick_spares_unready_sources (NO := Probe.source_Ops) 1
              (Probe.stage playing 0 [Probe.node false 10; Probe.node true 20])
              eq_refl eq_refl) as [_ Hs].
  split.
  - exact (proj1 (proj1 (Hs 0 (Probe.node false 10) eq_refl) eq_refl)).
  - exact (proj2 (Hs 1 (Probe.node true 20) eq_refl) eq_refl).
Defined.

(** ** Further properties: the public members *)

Section Members.
Context {N P D : Type}.
Context {NO : SourceNode.Ops N} {PR : Renderable P} {DR : Renderable D}.
Context {H : JS.Host}.

Local Abbreviation ctx := (VideoContext.t N P D).

Import VideoContext.

Lemma forEach_one_command (f : N -> N) (cmd : SourceNode.command) (l : list N) :
  forall i,
    forEach (fun n => (f n, [cmd])) i l =
    (map f l, map (fun j => OnSource j cmd) (seq i (List.length l))).
Proof.
  induction l as [|n l IH]; intros i; [reflexivity|].
  cbn [forEach]. now rewrite (IH (S i)).
Qed.

Lemma received_fan_out (cmd : SourceNode.command) (n i : nat) :
  received i (fan_out cmd n) = if Nat.ltb i n then [cmd] else [].
Proof.
  unfold fan_out.
  assert (G : forall s, received i (map (fun j => OnSource j cmd) (seq s n)) =
                        if Nat.leb s i && Nat.ltb i (s + n) then [cmd] else []).
  { induction n as [|n IH]; intros s.
    - simpl. destruct (Nat.leb_spec s i), (Nat.ltb_spec i (s + 0)); simpl;
        try reflexivity; lia.
    - cbn [seq map received]. rewrite IH.
      destruct (Nat.eqb_spec i s) as [->|Hne].
      + destruct (Nat.leb_spec (S s) s); [lia|].
        destruct (Nat.leb_spec s s); [|lia].
        destruct (Nat.ltb_spec s (s + S n)); [reflexivity|lia].
      + destruct (Nat.leb_spec (S s) i), (Nat.leb_spec s i),
          (Nat.ltb_spec i (S s + n)), (Nat.ltb_spec i (s + S n)); simpl;
          try reflexivity; lia. }
  rewrite (G 0). simpl. now destruct (Nat.ltb i n).
Qed.

Lemma fan_out_no_render (cmd : SourceNode.command) (n : nat) :
  filter is_render (fan_out cmd n) = [].
Proof.
  unfold fan_out. generalize 0.
  induction n as [|n IH]; intros s; simpl; auto.
Qed.

Lemma play_unfold (c : ctx) :
  play c =
  (mk (map SourceNode._play (_sourceNodes c)) (_processingNodes c)
      (_currentTime c) playing (_destinationNode c),
   fan_out SourceNode.Play (List.length (_sourceNodes c))).
Proof. unfold play. now rewrite forEach_one_command. Qed.

Lemma pause_unfold (c : ctx) :
  pause c =
  (mk (map SourceNode._pause (_sourceNodes c)) (_processingNodes c)
      (_currentTime c) paused (_destinationNode c),
   fan_out SourceNode.Pause (List.length (_sourceNodes c))).
Proof. unfold pause. now rewrite forEach_one_command. Qed.

Lemma seek_unfold (v : JS.value) (c : ctx) :
  set_currentTime v c =
  (mk (map (SourceNode._seek (coerce v)) (_sourceNodes c)) (_processingNodes c)
      (coerce v) (_state c) (_destinationNode c),
   fan_out (SourceNode.Seek (coerce v)) (List.length (_sourceNodes c))).
Proof. unfold set_currentTime. now rewrite forEach_one_command. Qed.

(** X1: [play()], [pause()] and the [currentTime] setter reach every
    registered source node exactly once, in creation order, and nothing
    else: a source with index [i] receives the one command, an index past
    the last source receives nothing, and no render call is made.  They work
    from every state, [ended] and [broken] included; the setter keeps the
    state and stores the value as it is, without clamping it to the
    duration. *)
Theorem members_reach_every_source_once (v : JS.value) (c : ctx) (i : nat) :
  let n := List.length (_sourceNodes c) in
  (_state (fst (play c)) = playing /\
   _currentTime (fst (play c)) = _currentTime c /\
   snd (play c) = fan_out SourceNode.Play n /\
   received i (snd (play c)) = if Nat.ltb i n then [SourceNode.Play] else [])
  /\
  (_state (fst (pause c)) = paused /\
   _currentTime (fst (pause c)) = _currentTime c /\
   snd (pause c) = fan_out SourceNode.Pause n /\
   received i (snd (pause c)) = if Nat.ltb i n then [SourceNode.Pause] else [])
  /\
  (_state (fst (set_currentTime v c)) = _state c /\
   _currentTime (fst (set_currentTime v c)) = coerce v /\
   snd (set_currentTime v c) = fan_out (SourceNode.Seek (coerce v)) n /\
   received i (snd (set_currentTime v c)) =
     if Nat.ltb i n then [SourceNode.Seek (coerce v)] else [])
  /\
  filter is_render (snd (play c) ++ snd (pause c) ++ snd (set_currentTime v c)) = [].
Proof.
  intros n. rewrite play_unfold, pause_unfold, seek_unfold. cbn [fst snd].
  cbn [_state _currentTime]. rewrite !received_fan_out.
  repeat split.
  now rewrite !filter_app, !fan_out_no_render.
Qed.

(** X2: [play(); pause();] is a round trip on the timeline: whatever the
    state was, the context ends [paused], with [currentTime], the processing
    nodes and the destination node untouched; every source has received
    [play] and then [pause], so it is left as [_pause] of [_play] of what it
    was. *)
Theorem play_then_pause_round_trip (c : ctx) :
  let c1 := fst (play c) in
  fst (pause c1) =
    mk (map (fun n => SourceNode._pause (SourceNode._play n)) (_sourceNodes c))
       (_processingNodes c) (_currentTime c) paused (_destinationNode c) /\
  (forall i n,
     nth_error (_sourceNodes c) i = Some n ->
     received i (snd (play c) ++ snd (pause c1))
       = [SourceNode.Play; SourceNode.Pause]).
Proof.
  intros c1. unfold c1. rewrite play_unfold. cbn [fst].
  rewrite pause_unfold. cbn [fst snd _sourceNodes _processingNodes _currentTime
                             _destinationNode].
  rewrite map_map, length_map. split; [reflexivity|].
  intros i n Hn. rewrite received_app, !received_fan_out.
  assert (Hi : i < List.length (_sourceNodes c))
    by (apply nth_error_Some; congruence).
  destruct (Nat.ltb_spec i (List.length (_sourceNodes c))); [reflexivity|lia].
Qed.

Lemma perform_state (r : request) (c : ctx) :
  _state (fst (perform r c)) =
  match r with
  | CallPlay => playing
  | CallPause => paused
  | Frame dt => _state (fst (_update dt c))
  | _ => _state c
  end.
Proof.
  destruct r; simpl; try reflexivity.
  - now rewrite play_unfold.
  - now rewrite pause_unfold.
  - now rewrite seek_unfold.
Qed.

Lemma session_next (r : request) (rs : list request) (c : ctx) :
  fst (session (r :: rs) c) = fst (session rs (fst (perform r c))).
Proof.
  cbn [session]. destruct (perform r c) as [c1 tr1]; cbn [fst].
  now destruct (session rs c1).
Qed.

Lemma update_state_cases (dt : float) (c : ctx) :
  _state (fst (_update dt c)) =
  match _state c with
  | playing | stalled =>
      if _isStalled c then stalled
      else if JS.gt (_currentTime c + dt)%float (duration c) then ended
           else playing
  | s => s
  end.
Proof.
  destruct (_state c) eqn:Es.
  - apply live_tick_state. now left.
  - assert (Hg : ticking (_state c) = true) by now rewrite Es.
    now rewrite (tick_state dt c Hg), advance_state, reconcile_state, Es.
  - apply live_tick_state. now right.
  - rewrite tick_halted by now left. exact Es.
  - rewrite tick_halted by now right. exact Es.
Qed.

(** X3: [ended] and [broken] are left only by [play()] and [pause()]: any
    sequence of seeks, node creations and frames keeps a context that is
    [ended] in [ended], and one that is [broken] in [broken]. *)
Theorem halted_until_play_or_pause (rs : list request) :
  forall c : ctx,
    _state c = ended \/ _state c = broken ->
    forallb (fun r => negb (restarts r)) rs = true ->
    _state (fst (session rs c)) = _state c.
Proof.
  induction rs as [|r rs IH]; intros c Hs Hrs; [reflexivity|].
  cbn [forallb] in Hrs. apply andb_true_iff in Hrs. destruct Hrs as [Hr Hrs].
  rewrite session_next.
  assert (E : _state (fst (perform r c)) = _state c).
  { rewrite perform_state. destruct r; try reflexivity; try discriminate.
    rewrite update_state_cases. now destruct Hs as [-> | ->]. }
  rewrite IH; [exact E| now rewrite E |exact Hrs].
Qed.

(** X4: no member of the class and no frame ever sets the state to
    [broken]: a context that is not [broken], in particular a new one, is
    not [broken] after any sequence of calls and frames. *)
Theorem broken_is_never_entered (rs : list request) :
  forall c : ctx,
    _state c <> broken -> _state (fst (session rs c)) <> broken.
Proof.
  induction rs as [|r rs IH]; intros c Hs; [exact Hs|].
  rewrite session_next. apply IH.
  rewrite perform_state. destruct r; try exact Hs; try discriminate.
  rewrite update_state_cases.
  destruct (_state c); try congruence;
    destruct (_isStalled c); try discriminate;
    destruct (JS.gt _ _); discriminate.
Qed.

Lemma perform_counts (r : request) (c : ctx) :
  List.length (_sourceNodes (fst (perform r c))) =
    List.length (_sourceNodes c) + (if is_create_source r then 1 else 0) /\
  List.length (_processingNodes (fst (perform r c))) =
    List.length (_processingNodes c) + (if is_create_effect r then 1 else 0).
Proof.
  destruct r; simpl.
  - rewrite play_unfold; simpl. rewrite length_map. lia.
  - rewrite pause_unfold; simpl. rewrite length_map. lia.
  - rewrite seek_unfold; simpl. rewrite length_map. lia.
  - rewrite length_app; simpl. lia.
  - rewrite length_app; simpl. lia.
  - destruct (ticking (_state c)) eqn:Hg.
    + rewrite (tick_unfold dt c Hg); simpl. rewrite !length_map. lia.
    + unfold _update. rewrite Hg. simpl. lia.
Qed.

(** X5: nodes are only ever added: after any sequence of calls and frames
    the context holds the source nodes it had plus one per
    [createVideoSourceNode], and the processing nodes it had plus one per
    [createEffectNode]; seeks, [play()], [pause()] and frames neither drop
    nor duplicate a node. *)
Theorem nodes_are_only_added (rs : list request) :
  forall c : ctx,
    List.length (_sourceNodes (fst (session rs c))) =
      List.length (_sourceNodes c) + List.length (filter is_create_source rs) /\
    List.length (_processingNodes (fst (session rs c))) =
      List.length (_processingNodes c) + List.length (filter is_create_effect rs).
Proof.
  induction rs as [|r rs IH]; intros c; [simpl; lia|].
  rewrite session_next.
  destruct (IH (fst (perform r c))) as [-> ->].
  destruct (perform_counts r c) as [-> ->].
  cbn [filter]. destruct (is_create_source r), (is_create_effect r); simpl; lia.
Qed.

End Members.

(** ** Further properties: one frame *)

Section Frames.
Context {N P D : Type}.
Context {NO : SourceNode.Ops N} {PR : Renderable P} {DR : Renderable D}.

Local Abbreviation ctx := (VideoContext.t N P D).

Import VideoContext.

(** X6: while some source is not ready, the clock stands still: a tick
    taken in [playing] or [stalled] with a source that reports not ready
    leaves [currentTime] as it was, whatever [dt] is, and hands every source
    that same time. *)
Theorem stalled_tick_holds_the_clock (dt : float) (c : ctx) :
  _state c = playing \/ _state c = stalled ->
  (exists n, In n (_sourceNodes c) /\ SourceNode._isReady n = false) ->
  _currentTime (fst (_update dt c)) = _currentTime c /\
  forall i n,
    nth_error (_sourceNodes c) i = Some n ->
    hd_error (received i (snd (_update dt c)))
      = Some (SourceNode.Update (_currentTime c)).
Proof.
  intros Hs Hex. apply isStalled_true in Hex.
  assert (Hg : ticking (_state c) = true) by (destruct Hs as [-> | ->]; reflexivity).
  assert (Hr : _state (reconcile c) = stalled).
  { rewrite reconcile_state, Hex. now destruct Hs as [-> | ->]. }
  assert (Ht : _currentTime (advance dt (reconcile c)) = _currentTime c)
    by now rewrite advance_time, Hr, reconcile_time.
  assert (Ha : _state (advance dt (reconcile c)) = stalled)
    by now rewrite advance_state, Hr.
  split; [now rewrite (tick_time dt c Hg)|].
  intros i n Hn. rewrite (tick_received dt c i Hg), Hn, Ht, Ha.
  unfold dispatch_body; cbn. now destruct (SourceNode._isReady _).
Qed.

(** X7: what a tick whose reconciled state is [playing] tells the sources:
    each receives the advanced time and then [play]; but on the tick that
    passes the duration each receives the advanced time only, so the tick on
    which the context becomes [ended] neither plays nor pauses any source. *)
Theorem playing_tick_commands (dt : float) (c : ctx) (i : nat) (n : N) :
  ticking (_state c) = true ->
  _state (reconcile c) = playing ->
  nth_error (_sourceNodes c) i = Some n ->
  let t := (_currentTime c + dt)%float in
  (JS.gt t (duration c) = false ->
   received i (snd (_update dt c)) = [SourceNode.Update t; SourceNode.Play] /\
   nth_error (_sourceNodes (fst (_update dt c))) i
     = Some (SourceNode._play (SourceNode._update t n)))
  /\
  (JS.gt t (duration c) = true ->
   received i (snd (_update dt c)) = [SourceNode.Update t] /\
   nth_error (_sourceNodes (fst (_update dt c))) i
     = Some (SourceNode._update t n)).
Proof.
  intros Hg Hr Hn t.
  assert (Ht : _currentTime (advance dt (reconcile c)) = t)
    by now rewrite advance_time, Hr, reconcile_time.
  assert (Ha : _state (advance dt (reconcile c)) =
               if JS.gt t (duration c) then ended else playing).
  { rewrite advance_state, Hr, reconcile_time.
    now rewrite (duration_sources (reconcile c) c (reconcile_sources c)). }
  rewrite (tick_received dt c i Hg), (tick_sources dt c i Hg Hn), Hn, Ha, Ht.
  split; intros ->; split; reflexivity.
Qed.

Lemma paused_tick_unfold (dt : float) (c : ctx) :
  _state c = paused ->
  _update dt c =
  (mk (map (fun n => SourceNode._pause (SourceNode._update (_currentTime c) n))
           (_sourceNodes c))
      (map _render (_processingNodes c)) (_currentTime c) paused
      (_render (_destinationNode c)),
   snd (forEach (dispatch_body paused (_currentTime c)) 0 (_sourceNodes c))
     ++ render_calls (List.length (_processingNodes c))).
Proof.
  intros Hs.
  assert (Hg : ticking (_state c) = true) by now rewrite Hs.
  assert (Hr : _state (reconcile c) = paused) by now rewrite reconcile_state, Hs.
  rewrite (tick_unfold dt c Hg); cbv zeta.
  rewrite advance_state, advance_time, Hr, reconcile_time. reflexivity.
Qed.

(** X9: a paused context stays put under frames: after any number of ticks
    taken from [paused], with any [dt], the state is [paused],
    [currentTime] is what it was and the context holds as many source nodes
    as before. *)
Theorem paused_holds_under_frames (k : nat) (dt : float) :
  forall c : ctx,
    _state c = paused ->
    _state (fst (ticks k dt c)) = paused /\
    _currentTime (fst (ticks k dt c)) = _currentTime c /\
    List.length (_sourceNodes (fst (ticks k dt c))) = List.length (_sourceNodes c).
Proof.
  induction k as [|k IH]; intros c Hs; [now repeat split|].
  rewrite ticks_next, (paused_tick_unfold dt c Hs). cbn [fst].
  destruct (IH (mk (map (fun n => SourceNode._pause
                                    (SourceNode._update (_currentTime c) n))
                        (_sourceNodes c))
                   (map _render (_processingNodes c)) (_currentTime c) paused
                   (_render (_destinationNode c))) eq_refl) as (-> & -> & ->).
  cbn [_currentTime _sourceNodes]. now rewrite length_map.
Qed.

(** X10: a context without source nodes cannot stall: a tick taken in
    [playing] or [stalled] makes the render calls only, and ends in [ended]
    as soon as the advanced time is above 0 (the duration of no sources),
    otherwise in [playing]. *)
Theorem no_sources_never_stalls (dt : float) (c : ctx) :
  _sourceNodes c = [] ->
  _state c = playing \/ _state c = stalled ->
  _state (fst (_update dt c)) =
    (if JS.gt (_currentTime c + dt)%float 0 then ended else playing) /\
  _currentTime (fst (_update dt c)) = (_currentTime c + dt)%float /\
  snd (_update dt c) = render_calls (List.length (_processingNodes c)).
Proof.
  intros Hn Hs.
  assert (Hg : ticking (_state c) = true) by (destruct Hs as [-> | ->]; reflexivity).
  assert (Hi : _isStalled c = false) by (unfold _isStalled; now rewrite Hn).
  assert (Hd : duration c = 0%float) by (unfold duration; now rewrite Hn).
  assert (Hr : _state (reconcile c) = playing).
  { rewrite reconcile_state, Hi. now destruct Hs as [-> | ->]. }
  split; [now rewrite live_tick_state, Hi, Hd|].
  split; [now rewrite (tick_time dt c Hg), advance_time, Hr, reconcile_time|].
  rewrite (tick_unfold dt c Hg); cbn [snd]. now rewrite Hn.
Qed.

(** X11: a tick never seeks: in a tick that passes the guard, every source
    receives first one time update, carrying the [currentTime] the tick ends
    with, and after it at most one further command, which is [play] or
    [pause]. *)
Theorem tick_updates_then_at_most_one_command (dt : float) (c : ctx)
    (i : nat) (n : N) :
  ticking (_state c) = true ->
  nth_error (_sourceNodes c) i = Some n ->
  exists rest,
    received i (snd (_update dt c))
      = SourceNode.Update (_currentTime (fst (_update dt c))) :: rest /\
    (rest = [] \/ rest = [SourceNode.Play] \/ rest = [SourceNode.Pause]) /\
    filter SourceNode.is_seek (received i (snd (_update dt c))) = [].
Proof.
  intros Hg Hn.
  rewrite (tick_received dt c i Hg), Hn, (tick_time dt c Hg).
  unfold dispatch_body.
  destruct (_state (advance dt (reconcile c))); cbn;
    try (eexists; split; [reflexivity|]; split; [auto|reflexivity]).
  destruct (SourceNode._isReady _); cbn;
    eexists; (split; [reflexivity|]); split; auto.
Qed.

Lemma createEffectNode_commutes (dt : float) (c : ctx) (effectNode : P) :
  advance dt (reconcile (createEffectNode effectNode c))
  = createEffectNode effectNode (advance dt (reconcile c)).
Proof.
  assert (R : reconcile (createEffectNode effectNode c)
              = createEffectNode effectNode (reconcile c)).
  { unfold reconcile, _isStalled; cbn.
    destruct (negb (STATE_eqb (_state c) paused)); [|reflexivity].
    now destruct (isStalled_from (_sourceNodes c)). }
  rewrite R. generalize (reconcile c) as x. intros x.
  unfold advance, duration; cbn.
  destruct (STATE_eqb (_state x) playing); [|reflexivity].
  now destruct (PrimFloat.ltb _ _).
Qed.

(** X12: a processing node created by [createEffectNode] joins the render
    pass at its end: the next tick that passes the guard renders the
    destination node, the processing nodes there were, and then the new
    one. *)
Theorem created_effect_renders_last (dt : float) (c : ctx) (effectNode : P) :
  ticking (_state c) = true ->
  filter is_render (snd (_update dt (createEffectNode effectNode c)))
    = filter is_render (snd (_update dt c))
        ++ [ProcessingRender (List.length (_processingNodes c))] /\
  _processingNodes (fst (_update dt (createEffectNode effectNode c)))
    = _processingNodes (fst (_update dt c)) ++ [_render effectNode] /\
  _state (fst (_update dt (createEffectNode effectNode c)))
    = _state (fst (_update dt c)).
Proof.
  intros Hg.
  assert (Hg' : ticking (_state (createEffectNode effectNode c)) = true) by exact Hg.
  rewrite (tick_unfold dt _ Hg'), (tick_unfold dt c Hg). cbv zeta.
  rewrite createEffectNode_commutes. cbn [fst snd].
  cbn [_processingNodes _state _currentTime _sourceNodes createEffectNode].
  split; [|split].
  - rewrite !filter_app, !forEach_no_render. cbn [app].
    unfold render_calls. rewrite length_app, Nat.add_comm. cbn [List.length Nat.add].
    rewrite seq_S, map_app. cbn [filter is_render map Nat.add].
    assert (F : forall l, filter is_render (map ProcessingRender l)
                          = map ProcessingRender l)
      by (induction l as [|x l IHl]; simpl; [reflexivity|now rewrite IHl]).
    rewrite filter_app, !F. reflexivity.
  - now rewrite map_app.
  - reflexivity.
Qed.

(** X13: a source node that is not ready when it is created stalls a
    running context at the next tick: the tick ends in [stalled] with the
    clock where it was, and the new node, the last in the list, receives
    that time and nothing else. *)
Theorem unready_new_source_stalls (dt : float) (c : ctx) (videoNode : N) :
  _state c = playing \/ _state c = stalled ->
  SourceNode._isReady videoNode = false ->
  SourceNode._isReady (SourceNode._update (_currentTime c) videoNode) = false ->
  let c1 := createVideoSourceNode videoNode c in
  _state (fst (_update dt c1)) = stalled /\
  _currentTime (fst (_update dt c1)) = _currentTime c /\
  received (List.length (_sourceNodes c)) (snd (_update dt c1))
    = [SourceNode.Update (_currentTime c)].
Proof.
  intros Hs Hnr Hnr' c1.
  assert (Hs1 : _state c1 = playing \/ _state c1 = stalled) by exact Hs.
  assert (Hg : ticking (_state c1) = true)
    by (destruct Hs1 as [-> | ->]; reflexivity).
  assert (Hex : _isStalled c1 = true).
  { apply isStalled_true. exists videoNode. split; [|exact Hnr].
    unfold c1; simpl. apply in_or_app. right. now left. }
  assert (Hr : _state (reconcile c1) = stalled).
  { rewrite reconcile_state, Hex. now destruct Hs1 as [-> | ->]. }
  assert (Ha : _state (advance dt (reconcile c1)) = stalled)
    by now rewrite advance_state, Hr.
  assert (Ht : _currentTime (advance dt (reconcile c1)) = _currentTime c)
    by now rewrite advance_time, Hr, reconcile_time.
  split; [now rewrite live_tick_state, Hex|].
  split; [now rewrite (tick_time dt c1 Hg)|].
  rewrite (tick_received dt c1 _ Hg), Ha, Ht.
  unfold c1; cbn [createVideoSourceNode with_sourceNodes _sourceNodes].
  rewrite nth_error_app2, Nat.sub_diag by lia. cbn [nth_error].
  unfold dispatch_body; cbn. now rewrite Hnr'.
Qed.

End Frames.

(** ** Further properties: numbers on the timeline *)

Section TimelineNumbers.

Lemma Prim2SF_nan : Prim2SF nan = S754_nan.
Proof. reflexivity. Qed.

Lemma add_nan (dt : float) : (nan + dt)%float = nan.
Proof. apply Prim2SF_inj. rewrite add_spec, Prim2SF_nan. reflexivity. Qed.

Lemma gt_nan (a : float) : JS.gt nan a = false /\ JS.gt a nan = false.
Proof.
  unfold JS.gt. rewrite !FloatAxioms.ltb_spec, Prim2SF_nan. unfold SFltb. split.
  - now destruct (Prim2SF a).
  - reflexivity.
Qed.

Lemma number_leb_refl (a : float) :
  (a =? a)%float = true -> (a <=? a)%float = true.
Proof.
  rewrite FloatAxioms.eqb_spec, FloatAxioms.leb_spec. unfold SFeqb, SFleb.
  now destruct (SFcompare _ _) as [[]|].
Qed.

Lemma finite_cases (t : float) :
  is_finite t = true ->
  exists s, Prim2SF t = S754_zero s \/ exists m e, Prim2SF t = S754_finite s m e.
Proof.
  unfold is_finite, is_nan, is_infinity.
  rewrite !FloatAxioms.eqb_spec, abs_spec.
  destruct (Prim2SF t) as [s|s| |s m e]; intros Hf.
  - exists s. now left.
  - exfalso. revert Hf. destruct s; vm_compute; discriminate.
  - exfalso. revert Hf. vm_compute. discriminate.
  - exists s. right. now exists m, e.
Qed.

Lemma delta_same_sample (t : float) :
  is_finite t = true -> Scheduler.delta (Some t) (Some t) = 0%float.
Proof.
  intros Hf. unfold Scheduler.delta, JS.toNumber.
  apply Prim2SF_inj. rewrite div_spec, sub_spec.
  destruct (finite_cases t Hf) as [s [-> | (m & e & ->)]].
  - destruct s; reflexivity.
  - unfold SF64sub, SFsub. rewrite Z.sub_diag. destruct s; reflexivity.
Qed.

End TimelineNumbers.

Section DurationBounds.
Context {N P D : Type}.
Context {NO : SourceNode.Ops N}.

Local Abbreviation ctx := (VideoContext.t N P D).

Import VideoContext.

Lemma duration_step_grows (acc : float) (n : N) :
  (0 <=? acc)%float = true ->
  (0 <=? duration_step acc n)%float = true /\
  (acc <=? duration_step acc n)%float = true.
Proof.
  intros H0. unfold duration_step.
  destruct (JS.gt (SourceNode._stopTime n) acc) eqn:Hgt.
  - split; [|exact (gt_leb _ _ Hgt)].
    exact (leb_trans _ _ _ H0 (gt_leb _ _ Hgt)).
  - split; [exact H0|exact (proj1 (leb_refl _ _ H0))].
Qed.

Lemma duration_loop_bounds (ns : list N) :
  let d := fold_left duration_step ns 0%float in
  (0 <=? d)%float = true /\
  (d = 0%float \/ exists n, In n ns /\ d = SourceNode._stopTime n) /\
  (forall n, In n ns ->
             (SourceNode._stopTime n =? SourceNode._stopTime n)%float = true ->
             (SourceNode._stopTime n <=? d)%float = true).
Proof.
  induction ns as [|n ns IH] using rev_ind; intros d.
  - split; [reflexivity|]. split; [now left|intros n []].
  - unfold d. rewrite fold_left_app. cbn [fold_left].
    destruct IH as (H0 & Hmem & Hub).
    set (acc := fold_left duration_step ns 0%float) in *.
    destruct (duration_step_grows acc n H0) as [H0' Hle].
    split; [exact H0'|]. split.
    + unfold duration_step. destruct (JS.gt (SourceNode._stopTime n) acc).
      * right. exists n. split; [apply in_or_app; right; now left|reflexivity].
      * destruct Hmem as [Hz|(m & Hm & He)]; [now left|].
        right. exists m. split; [apply in_or_app; now left|exact He].
    + intros m Hm Hnum. apply in_app_or in Hm. destruct Hm as [Hm|[<-|[]]].
      * exact (leb_trans _ _ _ (Hub m Hm Hnum) Hle).
      * unfold duration_step.
        destruct (JS.gt (SourceNode._stopTime n) acc) eqn:Hgt.
        -- exact (number_leb_refl _ Hnum).
        -- exact (not_gt_leb _ _ _ _ (number_leb_refl _ Hnum) H0 Hgt).
Qed.

(** C9 (amended): for every set of source nodes the duration is the maximum
    of 0 and the stop times that are numbers: it is not negative, it is 0 or
    the stop time of one of the nodes, and no node whose stop time is a
    number stops after it.  So it is 0 when there is no source node, and it
    equals the maximum stop time as soon as one stop time is at least 0.  A
    source node created with a stop time above the current duration makes
    its stop time the duration, which is thereby greater; one created with a
    stop time that is not above the current duration leaves the duration as
    it was. *)
Theorem duration_is_maximum_of_zero_and_stop_times :
  (forall c : ctx,
     (0 <=? duration c)%float = true /\
     (duration c = 0%float \/
      exists n, In n (_sourceNodes c) /\ duration c = SourceNode._stopTime n) /\
     (forall n,
        In n (_sourceNodes c) ->
        (SourceNode._stopTime n =? SourceNode._stopTime n)%float = true ->
        (SourceNode._stopTime n <=? duration c)%float = true))
  /\
  (forall c : ctx, _sourceNodes c = [] -> duration c = 0%float)
  /\
  (forall c : ctx,
     (exists n, In n (_sourceNodes c) /\
                (0 <=? SourceNode._stopTime n)%float = true) ->
     exists m, In m (_sourceNodes c) /\
               (duration c =? SourceNode._stopTime m)%float = true)
  /\
  (forall (c : ctx) (videoNode : N),
     JS.gt (SourceNode._stopTime videoNode) (duration c) = true ->
     duration (createVideoSourceNode videoNode c) = SourceNode._stopTime videoNode /\
     JS.gt (duration (createVideoSourceNode videoNode c)) (duration c) = true)
  /\
  (forall (c : ctx) (videoNode : N),
     JS.gt (SourceNode._stopTime videoNode) (duration c) = false ->
     duration (createVideoSourceNode videoNode c) = duration c).
Proof.
  split; [|split; [|split; [|split]]].
  - intros c. exact (duration_loop_bounds (_sourceNodes c)).
  - intros c Hc. unfold duration. now rewrite Hc.
  - intros c (n & Hin & Hpos).
    destruct (duration_loop_bounds (_sourceNodes c)) as (H0 & Hmem & Hub).
    fold (duration c) in H0, Hmem, Hub.
    destruct Hmem as [Hz|(m & Hm & He)].
    + exists n. split; [exact Hin|].
      pose proof (Hub n Hin (proj2 (leb_refl _ _ Hpos))) as Hle.
      rewrite Hz in *. exact (leb_antisym _ _ Hpos Hle).
    + exists m. split; [exact Hm|].
      rewrite <- He. exact (proj2 (leb_refl _ _ H0)).
  - intros c n Hgt. rewrite duration_push. unfold duration_step.
    now rewrite Hgt.
  - intros c n Hgt. rewrite duration_push. unfold duration_step.
    now rewrite Hgt.
Qed.

(** X14: whatever the stop times are, negative ones and [NaN] included, the
    duration is a number that is not negative; it is 0 or the stop time of
    one of the source nodes; and no source node whose stop time is a number
    stops after it. *)
Theorem duration_bounds (c : ctx) :
  (0 <=? duration c)%float = true /\
  (duration c = 0%float \/
   exists n, In n (_sourceNodes c) /\ duration c = SourceNode._stopTime n) /\
  (forall n,
     In n (_sourceNodes c) ->
     (SourceNode._stopTime n =? SourceNode._stopTime n)%float = true ->
     (SourceNode._stopTime n <=? duration c)%float = true).
Proof. exact (duration_loop_bounds (_sourceNodes c)). Qed.

(** X15: creating a source node never lowers the duration; a node whose stop
    time is not above the duration, or is [NaN], leaves the duration as it
    was. *)
Theorem duration_grows_with_sources (c : ctx) (videoNode : N) :
  (duration c <=? duration (createVideoSourceNode videoNode c))%float = true /\
  (JS.gt (SourceNode._stopTime videoNode) (duration c) = false ->
   duration (createVideoSourceNode videoNode c) = duration c) /\
  (SourceNode._stopTime videoNode = nan ->
   duration (createVideoSourceNode videoNode c) = duration c).
Proof.
  rewrite duration_push.
  destruct (duration_loop_bounds (_sourceNodes c)) as (H0 & _ & _).
  fold (duration c) in H0.
  split; [exact (proj2 (duration_step_grows (duration c) videoNode H0))|].
  unfold duration_step. split.
  - now intros ->.
  - intros ->. now rewrite (proj1 (gt_nan (duration c))).
Qed.

End DurationBounds.

Section PoisonedClock.
Context {N P D : Type}.
Context {NO : SourceNode.Ops N} {PR : Renderable P} {DR : Renderable D}.

Local Abbreviation ctx := (VideoContext.t N P D).

Import VideoContext.

Lemma nan_tick (dt : float) (c : ctx) :
  _currentTime c = nan ->
  _currentTime (fst (_update dt c)) = nan /\
  (_state c <> ended -> _state (fst (_update dt c)) <> ended).
Proof.
  intros Hn. split.
  - destruct (ticking (_state c)) eqn:Hg.
    + rewrite (tick_time dt c Hg), advance_time, reconcile_time, Hn.
      destruct (_state (reconcile c)); try reflexivity. apply add_nan.
    + unfold _update. rewrite Hg. exact Hn.
  - rewrite (update_state_cases dt c), Hn, add_nan.
    rewrite (proj1 (gt_nan (duration c))).
    destruct (_state c); try congruence; now destruct (_isStalled c).
Qed.

(** X16: a [NaN] clock is absorbing and never ends playback: once
    [currentTime] is [NaN] (as after a seek to a string that is not
    numeric), any number of ticks with any [dt] leave it [NaN], and a
    context that is not [ended] never becomes [ended]. *)
Theorem nan_clock_never_ends (k : nat) (dt : float) :
  forall c : ctx,
    _currentTime c = nan ->
    _currentTime (fst (ticks k dt c)) = nan /\
    (_state c <> ended -> _state (fst (ticks k dt c)) <> ended).
Proof.
  induction k as [|k IH]; intros c Hn; [now split|].
  rewrite ticks_next.
  destruct (nan_tick dt c Hn) as [Hn1 Hs1].
  destruct (IH (fst (_update dt c)) Hn1) as [Hn2 Hs2].
  split; [exact Hn2|]. intros Hs. exact (Hs2 (Hs1 Hs)).
Qed.

End PoisonedClock.

Section SeekThenFrame.
Context {N P D : Type}.
Context {NO : SourceNode.Ops N} {PR : Renderable P} {DR : Renderable D}.
Context {H : JS.Host}.

Local Abbreviation ctx := (VideoContext.t N P D).

Import VideoContext.

(** X8: a seek made while paused holds: the tick that follows leaves
    [currentTime] at the value that was set and the state [paused]; over the
    seek and the tick a source receives the seek, the time update with the
    same value, and a pause. *)
Theorem seek_while_paused_holds (v : JS.value) (dt : float) (c : ctx) :
  _state c = paused ->
  let c1 := fst (set_currentTime v c) in
  _state (fst (_update dt c1)) = paused /\
  _currentTime (fst (_update dt c1)) = coerce v /\
  forall i n,
    nth_error (_sourceNodes c) i = Some n ->
    received i (snd (set_currentTime v c) ++ snd (_update dt c1))
      = [SourceNode.Seek (coerce v); SourceNode.Update (coerce v);
         SourceNode.Pause] /\
    nth_error (_sourceNodes (fst (_update dt c1))) i
      = Some (SourceNode._pause
                (SourceNode._update (coerce v) (SourceNode._seek (coerce v) n))).
Proof.
  intros Hs c1.
  assert (E1 : c1 = mk (map (SourceNode._seek (coerce v)) (_sourceNodes c))
                       (_processingNodes c) (coerce v) (_state c)
                       (_destinationNode c))
    by (unfold c1; now rewrite seek_unfold).
  assert (Hs1 : _state c1 = paused) by (rewrite E1; exact Hs).
  rewrite (paused_tick_unfold dt c1 Hs1). cbn [fst snd _state _currentTime].
  split; [reflexivity|]. split; [now rewrite E1|].
  intros i n Hn.
  assert (Hn1 : nth_error (_sourceNodes c1) i
                = Some (SourceNode._seek (coerce v) n))
    by (rewrite E1; cbn [_sourceNodes]; now rewrite nth_error_map, Hn).
  assert (Hi : i < List.length (_sourceNodes c))
    by (apply nth_error_Some; congruence).
  split.
  - rewrite seek_unfold. cbn [snd].
    rewrite !received_app, received_fan_out, received_render_calls,
      received_forEach_0, Hn1.
    destruct (Nat.ltb_spec i (List.length (_sourceNodes c))); [|lia].
    rewrite E1. reflexivity.
  - cbn [_sourceNodes]. rewrite nth_error_map, Hn1. now rewrite E1.
Qed.

End SeekThenFrame.

(** ** Further properties: the frame loop *)

Section FrameLoopMore.
Context {U : Type} {UU : Scheduler.Updateable U}.

Import Scheduler.

Lemma run_shape (dt : float) (us : list U) :
  forall i,
    exists k,
      k <= List.length us /\
      snd (fst (run dt i us)) = seq i k /\
      List.length (fst (fst (run dt i us))) = List.length us /\
      skipn k (fst (fst (run dt i us))) = skipn k us /\
      (snd (run dt i us) = None -> k = List.length us).
Proof.
  induction us as [|u us IH]; intros i.
  - exists 0. cbn. repeat split; auto.
  - cbn [run]. destruct (_update dt u) as [u' [e|]].
    + exists 1. cbn. repeat split; try lia. discriminate.
    + destruct (IH (S i)) as (k & Hk & Hinv & Hlen & Hskip & Hnone).
      destruct (run dt (S i) us) as [[us' inv] e]. cbn [fst snd] in *.
      exists (S k). cbn [List.length seq skipn].
      repeat split; try lia; try congruence.
      intros He. now rewrite (Hnone He).
Qed.

(** X17: one frame pass, whoever throws: the next frame callback is
    requested exactly when no updateable threw; the updateables invoked are
    the first [k] in registration order, all of them when nothing was
    thrown; the list keeps its length, and the updateables after the [k]-th
    are as they were. *)
Theorem frame_requested_iff_nothing_thrown (time : option float) (s : t U) :
  frameRequests (after (update time s)) =
    frameRequests s +
    match thrown (update time s) with
    | None => 1
    | Some _ => 0
    end /\
  List.length (updateables (after (update time s)))
    = List.length (updateables s) /\
  exists k,
    k <= List.length (updateables s) /\
    invoked (update time s) = seq 0 k /\
    skipn k (updateables (after (update time s))) = skipn k (updateables s) /\
    (thrown (update time s) = None ->
     k = List.length (updateables s) /\
     previousTime (after (update time s)) = time).
Proof.
  unfold update.
  set (previous := match previousTime s with
                   | Some p => Some p
                   | None => time
                   end).
  destruct (run_shape (delta time previous) (updateables s) 0)
    as (k & Hk & Hinv & Hlen & Hskip & Hnone).
  destruct (run (delta time previous) 0 (updateables s)) as [[us inv] [e|]];
    cbn [fst snd] in *; cbn [after thrown invoked frameRequests updateables
                             previousTime].
  - split; [lia|]. split; [exact Hlen|]. exists k.
    repeat split; auto; discriminate.
  - split; [lia|]. split; [exact Hlen|]. exists k.
    repeat split; auto.
Qed.

(** X18: the first frame callback, the one that finds no earlier time
    sample, ticks the updateables with [dt = 0] for every finite timestamp,
    and the timestamp is recorded as [previousTime] even when an updateable
    throws. *)
Theorem first_frame_has_dt_zero (t : float) (s : Scheduler.t U) :
  previousTime s = None ->
  is_finite t = true ->
  update (Some t) s =
    match run 0%float 0 (updateables s) with
    | (us, inv, Some e) =>
        mkOutcome (mk us (Some t) (frameRequests s)) inv (Some e)
    | (us, inv, None) =>
        mkOutcome (mk us (Some t) (S (frameRequests s))) inv None
    end /\
  previousTime (after (update (Some t) s)) = Some t.
Proof.
  intros Hp Hf. unfold update. rewrite Hp, (delta_same_sample t Hf).
  split; [reflexivity|].
  now destruct (run 0%float 0 (updateables s)) as [[us inv] [e|]].
Qed.

End FrameLoopMore.

(** ** The further properties at sample inputs *)

(** A whole session on the sample nodes: two sources are created, [play()]
    is called, and five frames of 5 seconds pass. *)
Example session_to_the_end :
  VideoContext._state
    (fst (VideoContext.session
            [VideoContext.CreateVideoSourceNode (Probe.node true 10);
             VideoContext.CreateVideoSourceNode (Probe.node true 20);
             VideoContext.CallPlay;
             VideoContext.Frame 5; VideoContext.Frame 5; VideoContext.Frame 5;
             VideoContext.Frame 5; VideoContext.Frame 5]
            (VideoContext.new (P := Probe.surface) (Probe.mkSurface 0))))
  = ended.
Proof. reflexivity. Qed.

Lemma play_then_pause_round_trip_witness :
  received 0
    (snd (VideoContext.play (Probe.stage ended 3 [Probe.node true 10]))
     ++ snd (VideoContext.pause
               (fst (VideoContext.play (Probe.stage ended 3 [Probe.node true 10])))))
  = [SourceNode.Play; SourceNode.Pause].
Proof.
  exact (proj2 (play_then_pause_round_trip
                  (Probe.stage ended 3 [Probe.node true 10]))
               0 (Probe.node true 10) eq_refl).
Defined.

Lemma halted_until_play_or_pause_witness :
  VideoContext._state
    (fst (VideoContext.session
            [VideoContext.SetCurrentTime (JS.Number 0); VideoContext.Frame 1;
             VideoContext.CreateVideoSourceNode (Probe.node true 50);
             VideoContext.Frame 1]
            (Probe.stage ended 30 [Probe.node true 10])))
  = ended.
Proof.
  exact (halted_until_play_or_pause (H := Probe.host)
           [VideoContext.SetCurrentTime (JS.Number 0); VideoContext.Frame 1;
            VideoContext.CreateVideoSourceNode (Probe.node true 50);
            VideoContext.Frame 1]
           (Probe.stage ended 30 [Probe.node true 10])
           (or_introl eq_refl) eq_refl).
Defined.

Lemma broken_is_never_entered_witness :
  VideoContext._state
    (fst (VideoContext.session
            [VideoContext.CreateVideoSourceNode (Probe.node false 10);
             VideoContext.CallPlay; VideoContext.Frame 5;
             VideoContext.SetCurrentTime (JS.Str "abc"); VideoContext.Frame 5]
            (VideoContext.new (P := Probe.surface) (Probe.mkSurface 0))))
  <> broken.
Proof.
  apply (broken_is_never_entered (H := Probe.host)). discriminate.
Defined.

Lemma stalled_tick_holds_the_clock_witness :
  VideoContext._currentTime
    (fst (VideoContext._update 5
            (Probe.stage playing 3 [Probe.node false 10; Probe.node true 20])))
  = 3%float.
Proof.
  refine (proj1 (stalled_tick_holds_the_clock 5
                   (Probe.stage playing 3 [Probe.node false 10; Probe.node true 20])
                   (or_introl eq_refl) _)).
  exists (Probe.node false 10). split; [now left|reflexivity].
Defined.

Lemma playing_tick_commands_witness :
  received 0
    (snd (VideoContext._update 5 (Probe.stage playing 3 [Probe.node true 10])))
    = [SourceNode.Update 8; SourceNode.Play] /\
  received 0
    (snd (VideoContext._update 5 (Probe.stage playing 8 [Probe.node true 10])))
    = [SourceNode.Update 13].
Proof.
  split.
  - exact (proj1 (proj1 (playing_tick_commands (NO := Probe.source_Ops) 5
                           (Probe.stage playing 3 [Probe.node true 10])
                           0 (Probe.node true 10) eq_refl eq_refl eq_refl)
                        eq_refl)).
  - exact (proj1 (proj2 (playing_tick_commands (NO := Probe.source_Ops) 5
                           (Probe.stage playing 8 [Probe.node true 10])
                           0 (Probe.node true 10) eq_refl eq_refl eq_refl)
                        eq_refl)).
Defined.

Lemma paused_holds_under_frames_witness :
  VideoContext._currentTime
    (fst (VideoContext.ticks 4 1 (Probe.stage paused 3 [Probe.node true 10])))
  = 3%float.
Proof.
  exact (proj1 (proj2 (paused_holds_under_frames 4 1
                         (Probe.stage paused 3 [Probe.node true 10]) eq_refl))).
Defined.

Lemma no_sources_never_stalls_witness :
  VideoContext._state
    (fst (VideoContext._update 1 (Probe.stage stalled 0 [])))
  = ended.
Proof.
  exact (proj1 (no_sources_never_stalls (NO := Probe.source_Ops) 1
                  (Probe.stage stalled 0 []) eq_refl (or_intror eq_refl))).
Defined.

Lemma tick_updates_then_at_most_one_command_witness :
  exists rest,
    received 0
      (snd (VideoContext._update 5 (Probe.stage playing 3 [Probe.node true 10])))
    = SourceNode.Update 8 :: rest.
Proof.
  destruct (tick_updates_then_at_most_one_command 5
              (Probe.stage playing 3 [Probe.node true 10])
              0 (Probe.node true 10) eq_refl eq_refl) as (rest & Hr & _).
  exists rest. exact Hr.
Defined.

Lemma created_effect_renders_last_witness :
  filter is_render
    (snd (VideoContext._update 1
            (VideoContext.createEffectNode (Probe.mkSurface 7)
               (Probe.stage paused 0 [Probe.node true 10]))))
  = [DestinationRender; ProcessingRender 0; ProcessingRender 1].
Proof.
  exact (proj1 (created_effect_renders_last 1
                  (Probe.stage paused 0 [Probe.node true 10])
                  (Probe.mkSurface 7) eq_refl)).
Defined.

Lemma unready_new_source_stalls_witness :
  VideoContext._state
    (fst (VideoContext._update 5
            (VideoContext.createVideoSourceNode (Probe.node false 40)
               (Probe.stage playing 3 [Probe.node true 10]))))
  = stalled.
Proof.
  exact (proj1 (unready_new_source_stalls 5
                  (Probe.stage playing 3 [Probe.node true 10])
                  (Probe.node false 40) (or_introl eq_refl) eq_refl eq_refl)).
Defined.

Lemma duration_bounds_witness :
  (Probe.stopTime (Probe.node true (-5))
   <=? VideoContext.duration
         (Probe.stage paused 0 [Probe.node true (-5); Probe.node true nan]))%float
  = true.
Proof.
  refine (proj2 (proj2 (duration_bounds
                          (Probe.stage paused 0
                             [Probe.node true (-5); Probe.node true nan])))
                (Probe.node true (-5)) _ eq_refl).
  now left.
Defined.

Lemma duration_grows_with_sources_witness :
  VideoContext.duration
    (VideoContext.createVideoSourceNode (Probe.node true 5)
       (Probe.stage paused 0 [Probe.node true 20]))
  = VideoContext.duration (Probe.stage paused 0 [Probe.node true 20]) /\
  VideoContext.duration
    (VideoContext.createVideoSourceNode (Probe.node true nan)
       (Probe.stage paused 0 [Probe.node true 20]))
  = VideoContext.duration (Probe.stage paused 0 [Probe.node true 20]).
Proof.
  split.
  - exact (proj1 (proj2 (duration_grows_with_sources
                           (Probe.stage paused 0 [Probe.node true 20])
                           (Probe.node true 5))) eq_refl).
  - exact (proj2 (proj2 (duration_grows_with_sources
                           (Probe.stage paused 0 [Probe.node true 20])
                           (Probe.node true nan))) eq_refl).
Defined.

Lemma nan_clock_never_ends_witness :
  VideoContext._state
    (fst (VideoContext.ticks 3 1 (Probe.stage playing nan [Probe.node true 10])))
  <> ended.
Proof.
  apply (proj2 (nan_clock_never_ends 3 1
                  (Probe.stage playing nan [Probe.node true 10]) eq_refl)).
  discriminate.
Defined.

Lemma first_frame_has_dt_zero_witness :
  Scheduler.previousTime
    (Scheduler.after
       (Scheduler.update (Some 100%float)
          (Scheduler.mk [Probe.Counter 0] None 1)))
  = Some 100%float.
Proof.
  exact (proj2 (first_frame_has_dt_zero 100
                  (Scheduler.mk [Probe.Counter 0] None 1) eq_refl eq_refl)).
Defined.

Lemma seek_while_paused_holds_witness :
  VideoContext._currentTime
    (fst (VideoContext._update 1
            (fst (VideoContext.set_currentTime (JS.Str "12.5")
                    (Probe.stage paused 3 [Probe.node true 10])))))
  = 12.5%float.
Proof.
  exact (proj1 (proj2 (seek_while_paused_holds (H := Probe.host) (JS.Str "12.5") 1
                         (Probe.stage paused 3 [Probe.node true 10]) eq_refl))).
Defined.

Lemma frame_requested_iff_nothing_thrown_witness :
  Scheduler.frameRequests
    (Scheduler.after
       (Scheduler.update (Some 16%float)
          (Scheduler.mk [Probe.Counter 0; Probe.Counter 5] (Some 0%float) 0)))
  = 1 /\
  Scheduler.frameRequests
    (Scheduler.after (Scheduler.update (Some 16%float) Probe.widgets))
  = 0.
Proof.
  split.
  - exact (proj1 (frame_requested_iff_nothing_thrown (Some 16%float)
                    (Scheduler.mk [Probe.Counter 0; Probe.Counter 5]
                                  (Some 0%float) 0))).
  - exact (proj1 (frame_requested_iff_nothing_thrown (Some 16%float)
                    Probe.widgets)).
Defined.

(** Counterexample to C9 as stated: the only source stops at -5, yet the
    duration reads 0, which is not that maximum; a source stopping at -3,
    later than the current maximum, is added and the duration is still 0. *)
Lemma negative_stop_time_is_not_the_duration :
  VideoContext.duration (Probe.stage paused 0 [Probe.node true (-5)]) = 0%float /\
  (VideoContext.duration (Probe.stage paused 0 [Probe.node true (-5)])
   =? Probe.stopTime (Probe.node true (-5)))%float = false /\
  JS.gt (Probe.stopTime (Probe.node true (-3)))
        (Probe.stopTime (Probe.node true (-5))) = true /\
  VideoContext.duration
    (VideoContext.createVideoSourceNode (Probe.node true (-3))
       (Probe.stage paused 0 [Probe.node true (-5)]))
  = VideoContext.duration (Probe.stage paused 0 [Probe.node true (-5)]) /\
  JS.gt
    (VideoContext.duration
       (VideoContext.createVideoSourceNode (Probe.node true (-3))
          (Probe.stage paused 0 [Probe.node true (-5)])))
    (VideoContext.duration (Probe.stage paused 0 [Probe.node true (-5)]))
  = false.
Proof. repeat split. Qed.

Lemma duration_is_maximum_of_zero_and_stop_times_witness :
  (exists m,
     In m [Probe.node true (-5); Probe.node true 20; Probe.node true 10] /\
     (VideoContext.duration
        (Probe.stage paused 0
           [Probe.node true (-5); Probe.node true 20; Probe.node true 10])
      =? Probe.stopTime m)%float = true) /\
  VideoContext.duration (Probe.stage paused 0 []) = 0%float /\
  VideoContext.duration
    (VideoContext.createVideoSourceNode (Probe.node true 30)
       (Probe.stage paused 0 [Probe.node true 20; Probe.node true 10]))
    = 30%float /\
  VideoContext.duration
    (VideoContext.createVideoSourceNode (Probe.node true (-3))
       (Probe.stage paused 0 [Probe.node true (-5)]))
    = VideoContext.duration (Probe.stage paused 0 [Probe.node true (-5)]).
Proof.
  destruct (duration_is_maximum_of_zero_and_stop_times
              (N := Probe.source) (P := Probe.surface) (D := Probe.surface))
    as (_ & Hnone & Hmax & Hpush & Hkeep).
  split; [|split; [|split]].
  - apply (Hmax (Probe.stage paused 0
                   [Probe.node true (-5); Probe.node true 20; Probe.node true 10])).
    exists (Probe.node true 20). split; [right; now left|reflexivity].
  - exact (Hnone (Probe.stage paused 0 []) eq_refl).
  - exact (proj1 (Hpush (Probe.stage paused 0 [Probe.node true 20; Probe.node true 10])
                    (Probe.node true 30) eq_refl)).
  - exact (Hkeep (Probe.stage paused 0 [Probe.node true (-5)])
             (Probe.node true (-3)) eq_refl).
Defined.
